(** * libpag glyph atlas and shape construction

    A shallow embedding of [src/rendering/caches/TextAtlas.cpp]
    (rectangle packer, page builder, atlas lookup, text-atlas facade) and of
    [Shape::MakeFrom], followed by the properties stated for them. *)

From Stdlib Require Import ZArith Lia Bool.
From Stdlib Require Import Floats.SpecFloat.
From stdpp Require Import base option list gmap.

Local Open Scope Z_scope.

(** ** Single-precision floats

    C++ [float] is IEEE-754 binary32: 24 bits of precision, maximal exponent
    128.  The operations are those of the standard library's executable
    specification, instantiated at that format. *)
Module Float32.

Definition prec : Z := 24.
Definition emax : Z := 128.

Definition t : Type := spec_float.

Definition add : t -> t -> t := SFadd prec emax.
Definition sub : t -> t -> t := SFsub prec emax.
Definition mul : t -> t -> t := SFmul prec emax.
Definition div : t -> t -> t := SFdiv prec emax.
Definition opp : t -> t := SFopp.

(** [a < b] and [a > b]; both are false when an operand is NaN. *)
Definition ltb : t -> t -> bool := SFltb.
Definition gtb (a b : t) : bool := SFltb b a.

(** [static_cast<float>(n)] for an [int] n: round to nearest, ties to even. *)
Definition of_int (n : Z) : t := binary_normalize prec emax n 0 false.

(** Largest integer below, and smallest integer above, a finite float.
    A finite float is [(-1)^s * m * 2^e]; shifting by a negative amount is a
    flooring division. *)
Definition floorZ (f : t) : option Z :=
  match f with
  | S754_zero _ => Some 0
  | S754_finite s m e => Some (Z.shiftl (cond_Zopp s (Zpos m)) e)
  | S754_infinity _ | S754_nan => None
  end.

Definition ceilZ (f : t) : option Z :=
  match floorZ (opp f) with
  | Some z => Some (- z)
  | None => None
  end.

Definition truncZ (f : t) : option Z :=
  match f with
  | S754_zero _ => Some 0
  | S754_finite true _ _ => ceilZ f
  | S754_finite false _ _ => floorZ f
  | S754_infinity _ | S754_nan => None
  end.

Definition int_min : Z := - 2 ^ 31.
Definition int_max : Z := 2 ^ 31 - 1.

(** [static_cast<int>] of a float whose integral value is [r].  C++ leaves
    the conversion undefined when the value is not finite or does not fit in
    an [int]; the model returns what the x86 conversion instruction
    delivers there, [INT_MIN]. *)
Definition static_cast_int (r : option Z) : Z :=
  match r with
  | Some z => if (int_min <=? z) && (z <=? int_max) then z else int_min
  | None => int_min
  end.

(** [static_cast<int>(f)], [static_cast<int>(floor(f))] and
    [static_cast<int>(ceil(f))]. *)
Definition to_int (f : t) : Z := static_cast_int (truncZ f).
Definition floor_int (f : t) : Z := static_cast_int (floorZ f).
Definition ceil_int (f : t) : Z := static_cast_int (ceilZ f).

End Float32.

Abbreviation float := Float32.t.

(** ** Machine integers

    A C++ [int] is a 32-bit two's-complement integer, modelled by its value in
    [Z].  Overflow of signed arithmetic is undefined in the language; the
    model gives it the value the target machines compute, the result modulo
    [2^32] taken in the signed range. *)
Module Int32.

Definition wrap (z : Z) : Z := (z + 2 ^ 31) mod 2 ^ 32 - 2 ^ 31.

Definition add (a b : Z) : Z := wrap (a + b).
Definition sub (a b : Z) : Z := wrap (a - b).
Definition mul (a b : Z) : Z := wrap (a * b).

End Int32.

Infix "⊞" := Int32.add (at level 50, left associativity).
Infix "⊟" := Int32.sub (at level 50, left associativity).
Infix "⊠" := Int32.mul (at level 40, left associativity).

(** ** Geometry types of the graphics library

    [tgfx::Point] and [tgfx::Rect] are declared outside the shown sources; the
    fields and the four operations the atlas code calls are written out here. *)
Module Point.
Record t : Type := Make { x : float; y : float }.
End Point.

Module Rect.
Record t : Type := MakeLTRB { left : float; top : float; right : float; bottom : float }.

Definition x (r : t) : float := left r.
Definition y (r : t) : float := top r.
Definition width (r : t) : float := Float32.sub (right r) (left r).
Definition height (r : t) : float := Float32.sub (bottom r) (top r).

Definition MakeXYWH (x y w h : float) : t :=
  MakeLTRB x y (Float32.add x w) (Float32.add y h).

Definition scale (sx sy : float) (r : t) : t :=
  MakeLTRB (Float32.mul (left r) sx) (Float32.mul (top r) sy)
           (Float32.mul (right r) sx) (Float32.mul (bottom r) sy).

(** Two rectangles share interior points. *)
Definition intersects (a b : t) : bool :=
  Float32.ltb (left a) (right b) && Float32.ltb (left b) (right a) &&
  Float32.ltb (top a) (bottom b) && Float32.ltb (top b) (bottom a).
End Rect.

(** ** RectanglePack *)
Module RectanglePack.

Definition kDefaultPadding : Z := 3.

Record t : Type := Build {
  padding : Z;
  _width : Z;
  _height : Z;
  x : Z;
  y : Z
}.

Definition width (pk : t) : Z := _width pk.
Definition height (pk : t) : Z := _height pk.

Definition reset (pk : t) : t :=
  {| padding := padding pk;
     _width := padding pk;
     _height := padding pk;
     x := padding pk;
     y := padding pk |}.

(** The constructor: the padding is [ceil(kDefaultPadding / scale)], then
    [reset()]. *)
Definition make (scale : float) : t :=
  let p := Float32.ceil_int (Float32.div (Float32.of_int kDefaultPadding) scale) in
  reset {| padding := p; _width := 0; _height := 0; x := 0; y := 0 |}.

(** First half of [addRect], on the padded size: when either wasted area
    exceeds the free area, open a new shelf to the right or below. *)
Definition openShelf (pk : t) (w h : Z) : t :=
  let area := (_width pk ⊟ x pk) ⊠ (_height pk ⊟ y pk) in
  if ((x pk ⊞ w ⊟ _width pk) ⊠ y pk >? area) || ((y pk ⊞ h ⊟ _height pk) ⊠ x pk >? area)
  then
    if _width pk <=? _height pk
    then {| padding := padding pk;
            _width := _width pk ⊞ w;
            _height := _height pk;
            x := _width pk;
            y := padding pk |}
    else {| padding := padding pk;
            _width := _width pk;
            _height := _height pk ⊞ h;
            x := padding pk;
            y := _height pk |}
  else pk.

(** Second half of [addRect]: move the cursor past the rectangle along one
    axis and grow the extent along the other. *)
Definition advance (pk : t) (w h : Z) : t :=
  if x pk ⊞ w ⊟ _width pk <? y pk ⊞ h ⊟ _height pk
  then {| padding := padding pk;
          _width := _width pk;
          _height := Z.max (_height pk) (y pk ⊞ h);
          x := x pk ⊞ w;
          y := y pk |}
  else {| padding := padding pk;
          _width := Z.max (_width pk) (x pk ⊞ w);
          _height := _height pk;
          x := x pk;
          y := y pk ⊞ h |}.

(** Integer cursor at which [addRect] places a request of size [w] x [h]. *)
Definition cursor (pk : t) (w h : Z) : Z * Z :=
  let pk1 := openShelf pk (w ⊞ padding pk) (h ⊞ padding pk) in
  (x pk1, y pk1).

Definition addRect (pk : t) (w h : Z) : Point.t * t :=
  let w := w ⊞ padding pk in
  let h := h ⊞ padding pk in
  let pk1 := openShelf pk w h in
  let point := Point.Make (Float32.of_int (x pk1)) (Float32.of_int (y pk1)) in
  (point, advance pk1 w h).

(** A rectangle in integer pack space: origin and size. *)
Record Placed : Type := MkPlaced { px : Z; py : Z; pw : Z; ph : Z }.

(** The padded rectangle [addRect] hands out for a request: the cursor and
    the request grown by the padding. *)
Definition paddedRect (pk : t) (w h : Z) : Placed :=
  let '(cx, cy) := cursor pk w h in
  MkPlaced cx cy (w ⊞ padding pk) (h ⊞ padding pk).

(** Padded rectangles of a stream of requests on one page, in order. *)
Fixpoint packAll (pk : t) (reqs : list (Z * Z)) : list Placed :=
  match reqs with
  | [] => []
  | (w, h) :: rest => paddedRect pk w h :: packAll (snd (addRect pk w h)) rest
  end.

Definition overlap (a b : Placed) : bool :=
  (px a <? px b + pw b) && (px b <? px a + pw a) &&
  (py a <? py b + ph b) && (py b <? py a + ph a).

End RectanglePack.

(** ** Glyphs

    [GlyphHandle] is a shared pointer to a [Glyph]; the model carries the
    values of the getters the atlas code calls.  The enumeration [TextStyle]
    is declared outside the shown sources; its three values are numbered in
    the order in which the data model lists them. *)
Inductive TextStyle : Type := Fill | Stroke | StrokeAndFill.

Definition TextStyle_to_uint32 (s : TextStyle) : Z :=
  match s with
  | Fill => 0
  | Stroke => 1
  | StrokeAndFill => 2
  end.

Record Typeface : Type := { uniqueID : Z; hasColor : bool }.

Record Font : Type := { getTypeface : Typeface; getSize : float }.

Record Glyph : Type := {
  getFont : Font;
  getStyle : TextStyle;
  getStrokeWidth : float;
  getBounds : Rect.t;
  getGlyphID : Z
}.

(** ** Byte keys

    A [tgfx::BytesKey] is the sequence of 32-bit words written to it, compared
    word by word.  A float is written as its bit pattern: two floats give the
    same word exactly when they are the same datum (the sign of zero counts;
    NaN payloads are not distinguished by the float model). *)
Inductive KeyWord : Type :=
  | KUint32 (n : Z)
  | KFloat (f : float).

Abbreviation BytesKey := (list KeyWord).

#[global] Instance spec_float_eq_dec : EqDecision spec_float.
Proof. solve_decision. Defined.

#[global] Instance KeyWord_eq_dec : EqDecision KeyWord.
Proof. solve_decision. Defined.

Definition spec_float_encode (f : spec_float) : bool + bool + unit + bool * positive * Z :=
  match f with
  | S754_zero s => inl (inl (inl s))
  | S754_infinity s => inl (inl (inr s))
  | S754_nan => inl (inr tt)
  | S754_finite s m e => inr (s, m, e)
  end.

Definition spec_float_decode (c : bool + bool + unit + bool * positive * Z) : spec_float :=
  match c with
  | inl (inl (inl s)) => S754_zero s
  | inl (inl (inr s)) => S754_infinity s
  | inl (inr _) => S754_nan
  | inr (s, m, e) => S754_finite s m e
  end.

#[global] Instance spec_float_countable : Countable spec_float.
Proof.
  apply (inj_countable' spec_float_encode spec_float_decode).
  intros []; reflexivity.
Defined.

Definition KeyWord_encode (w : KeyWord) : Z + spec_float :=
  match w with
  | KUint32 n => inl n
  | KFloat f => inr f
  end.

Definition KeyWord_decode (c : Z + spec_float) : KeyWord :=
  match c with
  | inl n => KUint32 n
  | inr f => KFloat f
  end.

#[global] Instance KeyWord_countable : Countable KeyWord.
Proof.
  apply (inj_countable' KeyWord_encode KeyWord_decode).
  intros []; reflexivity.
Defined.

(** [ComputeStyleKey]: style, stroke width and typeface identity, in this
    order. *)
Definition ComputeStyleKey (glyph : Glyph) : BytesKey :=
  [ KUint32 (TextStyle_to_uint32 (getStyle glyph));
    KFloat (getStrokeWidth glyph);
    KUint32 (uniqueID (getTypeface (getFont glyph))) ].

(** Modelled from the spec: [Glyph::computeAtlasKey] is declared outside the
    shown sources.  The spec describes it as a deterministic key writer that
    serializes the style discriminant, the stroke width and the typeface
    identity plus the glyph index; the style is the one passed by the caller. *)
Definition computeAtlasKey (glyph : Glyph) (style : TextStyle) : BytesKey :=
  [ KUint32 (TextStyle_to_uint32 style);
    KFloat (getStrokeWidth glyph);
    KUint32 (uniqueID (getTypeface (getFont glyph)));
    KUint32 (getGlyphID glyph) ].

(** ** Text runs, pages, locators *)
Inductive PaintStyle : Type := PaintFill | PaintStroke.

(** The two paint attributes the atlas sets.  [paintStrokeWidth] is [None]
    while [setStrokeWidth] has not been called. *)
Record Paint : Type := {
  paintStyle : PaintStyle;
  paintStrokeWidth : option float
}.

Record AtlasTextRun : Type := {
  paint : Paint;
  textFont : Font;
  glyphIDs : list Z;
  positions : list Point.t
}.

(** A texture is represented by what produced it: the size and alpha mode of
    the surface it was captured from, and the runs drawn on that surface under
    the uniform scale. *)
Record Texture : Type := {
  surfaceWidth : Z;
  surfaceHeight : Z;
  surfaceAlphaOnly : bool;
  drawScale : float;
  drawnRuns : list AtlasTextRun
}.

Module Page.
Record t : Type := Build {
  textRuns : list AtlasTextRun;
  width : Z;
  height : Z;
  texture : option Texture
}.

Definition empty : t := Build [] 0 0 None.
End Page.

Module AtlasLocator.
Record t : Type := Build {
  pageIndex : Z;
  location : Rect.t
}.
End AtlasLocator.

Definition ToTGFXPaintStyle (style : TextStyle) : PaintStyle :=
  match style with
  | StrokeAndFill | Fill => PaintFill
  | Stroke => PaintStroke
  end.

Definition CreateTextRun (glyph : Glyph) : AtlasTextRun :=
  {| paint :=
       {| paintStyle := ToTGFXPaintStyle (getStyle glyph);
          paintStrokeWidth :=
            match getStyle glyph with
            | Stroke => Some (getStrokeWidth glyph)
            | _ => None
            end |};
     textFont := getFont glyph;
     glyphIDs := [];
     positions := [] |}.

(** ** Atlas *)
Module Atlas.

Record t : Type := Build {
  pages : list Page.t;
  glyphLocators : gmap BytesKey AtlasLocator.t
}.

Definition empty : t := Build [] ∅.

(** *** initPages

    The loop state: the atlas under construction and the locals that live
    across iterations.  The local [page] is empty at the top of every
    iteration and is only filled at the moment a page is closed, so it is
    not part of the state. *)
Record LoopState : Type := MkLoop {
  this : t;
  styleKeys : list BytesKey;
  textRuns : list AtlasTextRun;
  pack : RectanglePack.t;
  pageIndex : Z
}.

Definition loopStart (scale : float) : LoopState :=
  {| this := empty;
     styleKeys := [];
     textRuns := [];
     pack := RectanglePack.make scale;
     pageIndex := 0 |}.

(** [std::find] over the style keys, then either a fresh run pushed at the
    back or the run at the index found.  The result is the two vectors and
    the index of the element [textRun] points to. *)
Definition selectRun (glyph : Glyph) (keys : list BytesKey) (runs : list AtlasTextRun)
  : list BytesKey * list AtlasTextRun * nat :=
  let styleKey := ComputeStyleKey glyph in
  match list_find (λ k, k = styleKey) keys with
  | None => (keys ++ [styleKey], runs ++ [CreateTextRun glyph], length runs)
  | Some (index, _) => (keys, runs, index)
  end.

(** The local [strokeWidth]: non-zero for the [Stroke] style only. *)
Definition strokeInflation (glyph : Glyph) : Z :=
  match getStyle glyph with
  | Stroke => Float32.ceil_int (getStrokeWidth glyph)
  | _ => 0
  end.

(** The locals [width] and [height] handed to [addRect]. *)
Definition packWidthOf (glyph : Glyph) : Z :=
  Float32.to_int (Rect.width (getBounds glyph)) ⊞ strokeInflation glyph ⊠ 2.

Definition packHeightOf (glyph : Glyph) : Z :=
  Float32.to_int (Rect.height (getBounds glyph)) ⊞ strokeInflation glyph ⊠ 2.

(** The locals [x] and [y]. *)
Definition originX (glyph : Glyph) : float :=
  Float32.sub (Rect.x (getBounds glyph)) (Float32.of_int (strokeInflation glyph)).

Definition originY (glyph : Glyph) : float :=
  Float32.sub (Rect.y (getBounds glyph)) (Float32.of_int (strokeInflation glyph)).

Definition overflows (pk : RectanglePack.t) (maxPageSize : Z) : bool :=
  (RectanglePack.width pk >? maxPageSize) || (RectanglePack.height pk >? maxPageSize).

(** A page closed with the given runs and packed extent. *)
Definition closePage (runs : list AtlasTextRun) (scale : float) (packWidth packHeight : Z)
  : Page.t :=
  {| Page.textRuns := runs;
     Page.width := Float32.ceil_int (Float32.mul (Float32.of_int packWidth) scale);
     Page.height := Float32.ceil_int (Float32.mul (Float32.of_int packHeight) scale);
     Page.texture := None |}.

Definition pushGlyph (glyph : Glyph) (point : Point.t) (run : AtlasTextRun) : AtlasTextRun :=
  {| paint := paint run;
     textFont := textFont run;
     glyphIDs := glyphIDs run ++ [getGlyphID glyph];
     positions := positions run ++
       [Point.Make (Float32.add (Float32.opp (originX glyph)) (Point.x point))
                   (Float32.add (Float32.opp (originY glyph)) (Point.y point))] |}.

Definition makeLocator (index : Z) (glyph : Glyph) (point : Point.t) (scale : float)
  : AtlasLocator.t :=
  {| AtlasLocator.pageIndex := index;
     AtlasLocator.location :=
       Rect.scale scale scale
         (Rect.MakeXYWH (Point.x point) (Point.y point)
            (Float32.of_int (packWidthOf glyph)) (Float32.of_int (packHeightOf glyph))) |}.

(** The vector that owns the element [textRun] points to at the time the
    glyph is appended.  [textRun] is taken from the local [textRuns] before
    the overflow test.  When the page overflows, the local vector is moved
    into [page], and [page] into [pages]: moving a vector hands over its
    element buffer, so the pointer then designates a run of the page that
    was just closed. *)
Inductive RunOwner : Type := LocalRuns | ClosedPageRuns.

Definition writeRun (owner : RunOwner) (index : nat) (f : AtlasTextRun -> AtlasTextRun)
    (closedPages : list Page.t) (runs : list AtlasTextRun)
  : list Page.t * list AtlasTextRun :=
  match owner with
  | LocalRuns => (closedPages, alter f index runs)
  | ClosedPageRuns =>
      (alter (λ p, {| Page.textRuns := alter f index (Page.textRuns p);
                      Page.width := Page.width p;
                      Page.height := Page.height p;
                      Page.texture := Page.texture p |})
             (pred (length closedPages)) closedPages,
       runs)
  end.

(** One iteration of the loop over the glyphs. *)
Definition step (scale : float) (maxPageSize : Z) (st : LoopState) (glyph : Glyph)
  : LoopState :=
  let '(keys1, runs1, index) := selectRun glyph (styleKeys st) (textRuns st) in
  let width := packWidthOf glyph in
  let height := packHeightOf glyph in
  let packWidth := RectanglePack.width (pack st) in
  let packHeight := RectanglePack.height (pack st) in
  let '(point, pack1) := RectanglePack.addRect (pack st) width height in
  let '(owner, pages1, keys2, runs2, point2, pack2, pageIndex2) :=
    if overflows pack1 maxPageSize
    then
      let page := closePage runs1 scale packWidth packHeight in
      let '(point', pack') := RectanglePack.addRect (RectanglePack.reset pack1) width height in
      (ClosedPageRuns, pages (this st) ++ [page], [], [], point', pack', pageIndex st ⊞ 1)
    else (LocalRuns, pages (this st), keys1, runs1, point, pack1, pageIndex st) in
  let '(pages3, runs3) := writeRun owner index (pushGlyph glyph point2) pages1 runs2 in
  let locator := makeLocator pageIndex2 glyph point2 scale in
  {| this :=
       {| pages := pages3;
          glyphLocators :=
            <[computeAtlasKey glyph (getStyle glyph) := locator]> (glyphLocators (this st)) |};
     styleKeys := keys2;
     textRuns := runs3;
     pack := pack2;
     pageIndex := pageIndex2 |}.

Definition maxPageSizeOf (maxTextureSize : Z) (scale : float) : Z :=
  Float32.floor_int (Float32.div (Float32.of_int maxTextureSize) scale).

(** The loop over a glyph stream, from the state at construction. *)
Definition loop (scale : float) (maxTextureSize : Z) (glyphs : list Glyph) : LoopState :=
  fold_left (step scale (maxPageSizeOf maxTextureSize scale)) glyphs (loopStart scale).

(** After the loop the page in progress is closed unconditionally. *)
Definition finish (scale : float) (st : LoopState) : t :=
  {| pages := pages (this st) ++
       [closePage (textRuns st) scale
          (RectanglePack.width (pack st)) (RectanglePack.height (pack st))];
     glyphLocators := glyphLocators (this st) |}.

Definition initPages (glyphs : list Glyph) (scale : float) (maxTextureSize : Z) : t :=
  finish scale (loop scale maxTextureSize glyphs).

(** *** draw

    Each page gets the texture of a surface of the page's size on which its
    runs were drawn.  The surface is used without a null test in the
    source; creating it is taken to succeed. *)
Definition drawPage (scale : float) (alphaOnly : bool) (page : Page.t) : Page.t :=
  {| Page.textRuns := Page.textRuns page;
     Page.width := Page.width page;
     Page.height := Page.height page;
     Page.texture :=
       Some {| surfaceWidth := Page.width page;
               surfaceHeight := Page.height page;
               surfaceAlphaOnly := alphaOnly;
               drawScale := scale;
               drawnRuns := Page.textRuns page |} |}.

Definition draw (scale : float) (alphaOnly : bool) (atlas : t) : t :=
  {| pages := map (drawPage scale alphaOnly) (pages atlas);
     glyphLocators := glyphLocators atlas |}.

(** *** Make

    [None] is the null pointer. *)
Definition Make (scale : float) (glyphs : list Glyph) (maxTextureSize : Z) (alphaOnly : bool)
  : option t :=
  match glyphs with
  | [] => None
  | glyph0 :: _ =>
      if Float32.gtb (Float32.mul (getSize (getFont glyph0)) scale) (Float32.of_int 256)
      then None
      else Some (draw scale alphaOnly (initPages glyphs scale maxTextureSize))
  end.

(** *** getLocator

    [Some l] stands for the result [true] with [l] stored through the
    out-parameter, [None] for [false]. *)
Definition getLocator (atlas : t) (glyph : Glyph) (style : TextStyle)
  : option AtlasLocator.t :=
  glyphLocators atlas !! computeAtlasKey glyph style.

End Atlas.

(** ** TextAtlas *)
Module TextAtlas.

(** The mask atlas pointer is never null in a constructed TextAtlas; the
    color atlas pointer may be. *)
Record t : Type := Build {
  maskAtlas : Atlas.t;
  colorAtlas : option Atlas.t;
  scale : float
}.

(** The glyph source: the two glyph lists and the maximal content scale. *)
Record TextGlyphs : Type := {
  maxScale : float;
  maskAtlasGlyphs : list Glyph;
  colorAtlasGlyphs : list Glyph
}.

Definition Make (textGlyphs : TextGlyphs) (maxTextureSize : Z) (scale : float) : option t :=
  let scale := Float32.mul scale (maxScale textGlyphs) in
  match Atlas.Make scale (maskAtlasGlyphs textGlyphs) maxTextureSize true with
  | None => None
  | Some mask =>
      Some {| maskAtlas := mask;
              colorAtlas := Atlas.Make scale (colorAtlasGlyphs textGlyphs) maxTextureSize false;
              scale := scale |}
  end.

Definition pageCount (atlas : Atlas.t) : Z := Z.of_nat (length (Atlas.pages atlas)).

Definition getLocator (ta : t) (glyph : Glyph) (style : TextStyle) : option AtlasLocator.t :=
  if hasColor (getTypeface (getFont glyph))
  then
    match colorAtlas ta with
    | Some color =>
        match Atlas.getLocator color glyph style with
        | Some locator =>
            Some {| AtlasLocator.pageIndex :=
                      AtlasLocator.pageIndex locator + pageCount (maskAtlas ta);
                    AtlasLocator.location := AtlasLocator.location locator |}
        | None => None
        end
    | None => None
    end
  else Atlas.getLocator (maskAtlas ta) glyph style.

(** [pages[i].texture]; the index is in range wherever this is used. *)
Definition textureAt (atlas : Atlas.t) (i : Z) : option Texture :=
  match Atlas.pages atlas !! Z.to_nat i with
  | Some page => Page.texture page
  | None => None
  end.

(** [pageIndex] is a [size_t]: the subtraction is modulo [2^64]. *)
Definition size_max : Z := 2 ^ 64.

Definition getAtlasTexture (ta : t) (pageIndex : Z) : option Texture :=
  if pageCount (maskAtlas ta) >? pageIndex
  then textureAt (maskAtlas ta) pageIndex
  else
    let pageIndex := (pageIndex - pageCount (maskAtlas ta)) mod size_max in
    match colorAtlas ta with
    | Some color =>
        if pageCount color >? pageIndex
        then textureAt color pageIndex
        else None
    | None => None
    end.

End TextAtlas.

(** ** Shape::MakeFrom

    Paths, colors, shaders and the shader factories belong to the graphics
    library; they are the variables of this section. *)
Module Shape.

Inductive GradientFillType : Type := Linear | Radial.

(** What a call delivers: a pointer, possibly null, or no defined result
    at all. *)
Inductive Outcome (A : Type) : Type :=
  | Returned (ptr : option A)
  | Undefined.
Arguments Returned {A} ptr.
Arguments Undefined {A}.

Section MakeFrom.
Variable Path : Type.
Variable isEmpty : Path -> bool.
Variable Color : Type.
Variable Shader : Type.
Variable MakeLinearGradient :
  Point.t -> Point.t -> list Color -> list float -> option Shader.
Variable MakeRadialGradient :
  Point.t -> float -> list Color -> list float -> option Shader.
Variable MakeColorShader : Color -> option Shader.
Variable Distance : Point.t -> Point.t -> float.

Record GradientPaint : Type := {
  gradientType : GradientFillType;
  startPoint : Point.t;
  endPoint : Point.t;
  colors : list Color;
  positions : list float
}.

(** The two attributes the factory sets on a default paint; [None] is an
    attribute left at its default. *)
Record Paint : Type := {
  getColor : option Color;
  getShader : option Shader
}.

Record t : Type := Build {
  path : Path;
  paint : Paint
}.

Definition MakeFrom (path : Path) (color : Color) : option t :=
  if isEmpty path
  then None
  else Some (Build path {| getColor := Some color; getShader := None |}).

(** The shader requested for a gradient, before the fallback. *)
Definition gradientShader (gradient : GradientPaint) : option Shader :=
  match gradientType gradient with
  | Linear =>
      MakeLinearGradient (startPoint gradient) (endPoint gradient)
        (colors gradient) (positions gradient)
  | Radial =>
      let radius := Distance (startPoint gradient) (endPoint gradient) in
      MakeRadialGradient (startPoint gradient) radius
        (colors gradient) (positions gradient)
  end.

(** The gradient overload.  [colors.back()] has no defined value on an
    empty vector. *)
Definition MakeFromGradient (path : Path) (gradient : GradientPaint) : Outcome t :=
  if isEmpty path
  then Returned None
  else
    match gradientShader gradient with
    | Some shader =>
        Returned (Some (Build path {| getColor := None; getShader := Some shader |}))
    | None =>
        match last (colors gradient) with
        | Some color =>
            Returned (Some (Build path {| getColor := None;
                                          getShader := MakeColorShader color |}))
        | None => Undefined
        end
    end.
End MakeFrom.

End Shape.

(** ** Quantities the stated properties speak about *)
Module Stated.

(** Stroke inflation as the page-builder description words it: applied
    whenever the style includes stroking. *)
Definition strokeInflation (glyph : Glyph) : Z :=
  match getStyle glyph with
  | Stroke | StrokeAndFill => Float32.ceil_int (getStrokeWidth glyph)
  | Fill => 0
  end.

Definition packWidthOf (glyph : Glyph) : Z :=
  Int32.wrap (Float32.to_int (Rect.width (getBounds glyph)) + 2 * strokeInflation glyph).

Definition packHeightOf (glyph : Glyph) : Z :=
  Int32.wrap (Float32.to_int (Rect.height (getBounds glyph)) + 2 * strokeInflation glyph).

(** The glyphs of a stream that the atlas locates on page [p]. *)
Definition glyphsOnPage (atlas : Atlas.t) (glyphs : list Glyph) (p : Z) : list Glyph :=
  filter (λ g, AtlasLocator.pageIndex <$> Atlas.getLocator atlas g (getStyle g) = Some p)
         glyphs.

(** Number of distinct style keys among the glyphs located on page [p]. *)
Definition distinctStyleKeys (atlas : Atlas.t) (glyphs : list Glyph) (p : Z) : nat :=
  length (remove_dups (map ComputeStyleKey (glyphsOnPage atlas glyphs p))).

(** Number of runs of page [p]. *)
Definition runCount (atlas : Atlas.t) (p : nat) : nat :=
  match Atlas.pages atlas !! p with
  | Some page => length (Page.textRuns page)
  | None => 0%nat
  end.

(** Style keys of a stream in the order of their first appearance. *)
Definition firstOccurrences (keys : list BytesKey) : list BytesKey :=
  fold_left (λ seen k, if decide (k ∈ seen) then seen else seen ++ [k]) keys [].

(** The key and run vectors group a stream by style key: the keys are the
    distinct style keys of the stream in the order of first appearance, and
    the run at the position of a key draws exactly the glyphs of that key, in
    stream order. *)
Definition groupsByStyleKey (keys : list BytesKey) (runs : list AtlasTextRun)
    (glyphs : list Glyph) : Prop :=
  keys = firstOccurrences (map ComputeStyleKey glyphs) ∧
  NoDup keys ∧
  (∀ k, k ∈ keys ↔ k ∈ map ComputeStyleKey glyphs) ∧
  length runs = length keys ∧
  ∀ i k, keys !! i = Some k →
    glyphIDs <$> runs !! i =
      Some (map getGlyphID (filter (λ g, ComputeStyleKey g = k) glyphs)).

(** Glyph indices drawn by each run of each page. *)
Definition drawLists (atlas : Atlas.t) : list (list (list Z)) :=
  map (λ page, map glyphIDs (Page.textRuns page)) (Atlas.pages atlas).

End Stated.

(** ** Concrete glyph streams *)
Module Sample.

Definition num (n : Z) : float := Float32.of_int n.

Definition typeface : Typeface := {| uniqueID := 7; hasColor := false |}.
Definition emoji : Typeface := {| uniqueID := 8; hasColor := true |}.

Definition font : Font := {| getTypeface := typeface; getSize := num 12 |}.
Definition emojiFont : Font := {| getTypeface := emoji; getSize := num 12 |}.

(** A glyph of the monochrome font with ink bounds [w] x [h] at the origin. *)
Definition glyph (style : TextStyle) (strokeWidth w h id : Z) : Glyph :=
  {| getFont := font;
     getStyle := style;
     getStrokeWidth := num strokeWidth;
     getBounds := Rect.MakeXYWH (num 0) (num 0) (num w) (num h);
     getGlyphID := id |}.

Definition colorGlyph (w h id : Z) : Glyph :=
  {| getFont := emojiFont;
     getStyle := Fill;
     getStrokeWidth := num 0;
     getBounds := Rect.MakeXYWH (num 0) (num 0) (num w) (num h);
     getGlyphID := id |}.

Definition g1 : Glyph := glyph Fill 0 10 10 1.
Definition g2 : Glyph := glyph Fill 0 10 10 2.
Definition g3 : Glyph := glyph Fill 0 10 10 3.
Definition g4 : Glyph := glyph Fill 0 19 20 4.
Definition g5 : Glyph := glyph Fill 0 10 17 5.

(** Small glyphs for the page-split streams. *)
Definition s2 : Glyph := glyph Fill 0 2 2 2.
Definition s3 : Glyph := glyph Fill 0 2 2 3.
Definition k2 : Glyph := glyph Stroke 1 2 2 2.

Definition strokedAndFilled : Glyph := glyph StrokeAndFill 2 10 10 9.

(** Glyphs of 250 x 250 pixels in a font of size 256, for pages of the usual
    texture size: sixty-four filled ones, a stroked one, a filled one. *)
Definition bigFont : Font := {| getTypeface := typeface; getSize := num 256 |}.

Definition tile (style : TextStyle) (strokeWidth id : Z) : Glyph :=
  {| getFont := bigFont;
     getStyle := style;
     getStrokeWidth := num strokeWidth;
     getBounds := Rect.MakeXYWH (num 0) (num 0) (num 250) (num 250);
     getGlyphID := id |}.

Definition tiles : list Glyph :=
  map (tile Fill 0) (seqZ 1 64) ++ [tile Stroke 1 65; tile Fill 0 66].

Definition textGlyphs : TextAtlas.TextGlyphs :=
  {| TextAtlas.maxScale := num 1;
     TextAtlas.maskAtlasGlyphs := [g1; s2; s3];
     TextAtlas.colorAtlasGlyphs := [colorGlyph 10 10 1] |}.

(** A text atlas with two mask pages and one color page. *)
Definition textAtlas : TextAtlas.t :=
  default (TextAtlas.Build Atlas.empty None (num 1))
          (TextAtlas.Make textGlyphs 20 (num 1)).

(** The same without color glyphs. *)
Definition maskOnly : TextAtlas.t :=
  default (TextAtlas.Build Atlas.empty None (num 1))
          (TextAtlas.Make {| TextAtlas.maxScale := num 1;
                             TextAtlas.maskAtlasGlyphs := [g1; s2; s3];
                             TextAtlas.colorAtlasGlyphs := [] |} 20 (num 1)).

End Sample.

(** A stand-in graphics library for concrete shapes: a path is its list
    of points, a color is a number, a shader is the color it paints; the
    gradient factories fail, as they do on a gradient they cannot build. *)
Module ShapeSample.

Definition Path : Type := list Point.t.
Definition isEmpty (path : Path) : bool := bool_decide (path = []).
Definition Color : Type := Z.
Definition Shader : Type := Z.

#[global] Instance Point_eq_dec : EqDecision Point.t.
Proof. solve_decision. Defined.

Definition MakeLinearGradient (_ _ : Point.t) (_ : list Color) (_ : list float)
  : option Shader := None.
Definition MakeRadialGradient (_ : Point.t) (_ : float) (_ : list Color) (_ : list float)
  : option Shader := None.
Definition MakeColorShader (color : Color) : option Shader := Some color.
Definition Distance (a b : Point.t) : float := Float32.sub (Point.x b) (Point.x a).

Definition MakeFrom : Path -> Color -> option (Shape.t Path Color Shader) :=
  Shape.MakeFrom Path isEmpty Color Shader.

Definition MakeFromGradient
  : Path -> Shape.GradientPaint Color -> Shape.Outcome (Shape.t Path Color Shader) :=
  Shape.MakeFromGradient Path isEmpty Color Shader
    MakeLinearGradient MakeRadialGradient MakeColorShader Distance.

Definition origin : Point.t := Point.Make (Float32.of_int 0) (Float32.of_int 0).
Definition corner : Point.t := Point.Make (Float32.of_int 4) (Float32.of_int 4).

Definition segment : Path := [origin; corner].

Definition gradient (colors : list Color) : Shape.GradientPaint Color :=
  {| Shape.gradientType := Shape.Linear;
     Shape.startPoint := origin;
     Shape.endPoint := corner;
     Shape.colors := colors;
     Shape.positions := [] |}.

End ShapeSample.

(** ** Well-formed runs and drawn glyphs *)
Module Drawn.

(** What [DrawTextRun] needs of a run: a first glyph to take the address of,
    and one position per glyph index. *)
Definition wellFormed (run : AtlasTextRun) : Prop :=
  glyphIDs run ≠ [] ∧ length (positions run) = length (glyphIDs run).

(** Glyph indices drawn by a vector of runs, and by all pages of an atlas. *)
Definition idsOfRuns (runs : list AtlasTextRun) : list Z :=
  concat (map glyphIDs runs).

Definition idsOfPages (pages : list Page.t) : list Z :=
  concat (map (λ page, idsOfRuns (Page.textRuns page)) pages).




End Drawn.

(** ** Packer states within the texture sizes in use *)
Module Packed.

(** The cursor and the extent are at or beyond the padding margin. *)
Definition margins (pk : RectanglePack.t) : Prop :=
  0 ≤ RectanglePack.padding pk ∧
  RectanglePack.padding pk ≤ RectanglePack.x pk ∧
  RectanglePack.padding pk ≤ RectanglePack.y pk ∧
  RectanglePack.padding pk ≤ RectanglePack._width pk ∧
  RectanglePack.padding pk ≤ RectanglePack._height pk.

(** Cursor and extent are below [limit]. *)
Definition below (limit : Z) (pk : RectanglePack.t) : Prop :=
  RectanglePack.x pk < limit ∧ RectanglePack.y pk < limit ∧
  RectanglePack._width pk < limit ∧ RectanglePack._height pk < limit.

(** A padded rectangle lies within the packed extent. *)
Definition enclosed (pk : RectanglePack.t) (r : RectanglePack.Placed) : Prop :=
  RectanglePack.px r + RectanglePack.pw r ≤ RectanglePack.width pk ∧
  RectanglePack.py r + RectanglePack.ph r ≤ RectanglePack.height pk.

End Packed.

(** ** The canvas of a surface

    [tgfx::Canvas] and [tgfx::Matrix] belong to the graphics library.  A canvas
    is represented by its current matrix and the glyph draw calls issued on
    it, each with the matrix in force at the call; matrices, the scale matrix
    and matrix concatenation are the variables of this section. *)
Module Canvas.

Section Canvas.
Variable Matrix : Type.
Variable MakeScale : float -> Matrix.
Variable concatMatrix : Matrix -> Matrix -> Matrix.

Record DrawCall : Type := {
  callMatrix : Matrix;
  callGlyphs : list Z;
  callPositions : list Point.t;
  callFont : Font;
  callPaint : Paint
}.

Record t : Type := Build {
  getMatrix : Matrix;
  calls : list DrawCall
}.

Definition setMatrix (matrix : Matrix) (canvas : t) : t :=
  {| getMatrix := matrix; calls := calls canvas |}.

Definition concat (matrix : Matrix) (canvas : t) : t :=
  {| getMatrix := concatMatrix (getMatrix canvas) matrix; calls := calls canvas |}.

(** [drawGlyphs] is handed the two arrays of a run and the number of glyph
    indices. *)
Definition drawGlyphs (glyphs : list Z) (positions : list Point.t) (font : Font)
    (paint : Paint) (canvas : t) : t :=
  {| getMatrix := getMatrix canvas;
     calls := calls canvas ++
       [{| callMatrix := getMatrix canvas;
           callGlyphs := glyphs;
           callPositions := positions;
           callFont := font;
           callPaint := paint |}] |}.

Definition DrawTextRun (canvas : t) (textRuns : list AtlasTextRun) (scale : float) : t :=
  let totalMatrix := getMatrix canvas in
  let drawn :=
    fold_left
      (λ canvas textRun,
         drawGlyphs (glyphIDs textRun) (positions textRun) (textFont textRun) (paint textRun)
           (concat (MakeScale scale) (setMatrix totalMatrix canvas)))
      textRuns canvas in
  setMatrix totalMatrix drawn.

End Canvas.

End Canvas.

(** ** Memory usage

    [tgfx::Texture::memoryUsage] belongs to the graphics library and is the
    variable of this section.  The sums are [size_t] sums, modulo [2^64].
    [None] stands for the dereference of a null texture pointer. *)
Module Usage.

Section Usage.
Variable textureMemoryUsage : Texture -> Z.

Definition ofAtlas (atlas : Atlas.t) : option Z :=
  fold_left
    (λ usage page,
       match usage, Page.texture page with
       | Some usage, Some texture =>
           Some ((usage + textureMemoryUsage texture) mod TextAtlas.size_max)
       | _, _ => None
       end)
    (Atlas.pages atlas) (Some 0).

Definition ofTextAtlas (ta : TextAtlas.t) : option Z :=
  match ofAtlas (TextAtlas.maskAtlas ta) with
  | Some mask =>
      let usage := (0 + mask) mod TextAtlas.size_max in
      match TextAtlas.colorAtlas ta with
      | Some color =>
          match ofAtlas color with
          | Some more => Some ((usage + more) mod TextAtlas.size_max)
          | None => None
          end
      | None => Some usage
      end
  | None => None
  end.

End Usage.

End Usage.

(** A packer state and a text-atlas source for concrete checks: the packer
    after three glyphs of 10 x 10 at padding 3. *)
Module PackSample.

Definition afterThree : RectanglePack.t := RectanglePack.Build 3 29 29 16 16.

Definition area (texture : Texture) : Z := surfaceWidth texture * surfaceHeight texture.

End PackSample.

(** * Properties *)

(** ** Machine arithmetic *)

(** A sum of machine integers whose second summand is a machine product is
    the machine value of the exact expression. *)
Lemma Int32_add_mul_2 (a b : Z) : a ⊞ b ⊠ 2 = Int32.wrap (a + 2 * b).
Proof.
  unfold Int32.add, Int32.mul, Int32.wrap.
  replace (a + ((b * 2 + 2 ^ 31) mod 2 ^ 32 - 2 ^ 31) + 2 ^ 31)
    with (a + (b * 2 + 2 ^ 31) mod 2 ^ 32) by lia.
  rewrite Z.add_mod_idemp_r by lia.
  f_equal. f_equal. lia.
Qed.

(** ** The page builder, one step at a time *)

(** What an overflowing step leaves behind, for every state and glyph: the
    closed page has the extent the packer had before the request, the packer
    restarts from [reset] with the same request, the page index grows by
    one, and the local key and run vectors are empty.  The glyph itself went
    to the run vector that was moved into the closed page. *)
Lemma step_on_overflow (scale : float) (maxPageSize : Z) (st : Atlas.LoopState) (glyph : Glyph) :
  let w := Atlas.packWidthOf glyph in
  let h := Atlas.packHeightOf glyph in
  let st' := Atlas.step scale maxPageSize st glyph in
  Atlas.overflows (RectanglePack.addRect (Atlas.pack st) w h).2 maxPageSize = true →
  ∃ runs index,
    (Atlas.selectRun glyph (Atlas.styleKeys st) (Atlas.textRuns st)).2 = index ∧
    (Atlas.selectRun glyph (Atlas.styleKeys st) (Atlas.textRuns st)).1.2 = runs ∧
    Atlas.pages (Atlas.this st') =
      alter (λ p, Page.Build
                    (alter (Atlas.pushGlyph glyph
                              (RectanglePack.addRect
                                 (RectanglePack.reset (RectanglePack.addRect (Atlas.pack st) w h).2)
                                 w h).1)
                           index (Page.textRuns p))
                    (Page.width p) (Page.height p) (Page.texture p))
            (length (Atlas.pages (Atlas.this st)))
            (Atlas.pages (Atlas.this st) ++
               [Atlas.closePage runs scale
                  (RectanglePack.width (Atlas.pack st))
                  (RectanglePack.height (Atlas.pack st))]) ∧
    Atlas.textRuns st' = [] ∧
    Atlas.styleKeys st' = [] ∧
    Atlas.pack st' =
      (RectanglePack.addRect
         (RectanglePack.reset (RectanglePack.addRect (Atlas.pack st) w h).2) w h).2 ∧
    Atlas.pageIndex st' = Atlas.pageIndex st ⊞ 1.
Proof.
  intros w h st' Hover. subst st' w h.
  unfold Atlas.step.
  destruct (Atlas.selectRun glyph (Atlas.styleKeys st) (Atlas.textRuns st))
    as [[keys1 runs1] index] eqn:Hsel.
  destruct (RectanglePack.addRect (Atlas.pack st) (Atlas.packWidthOf glyph)
              (Atlas.packHeightOf glyph)) as [point pack1] eqn:Hadd.
  cbn [fst snd] in *. rewrite Hover.
  destruct (RectanglePack.addRect (RectanglePack.reset pack1) (Atlas.packWidthOf glyph)
              (Atlas.packHeightOf glyph)) as [point' pack'] eqn:Hadd'.
  exists runs1, index.
  cbn [fst snd Atlas.writeRun Atlas.this Atlas.pages Atlas.textRuns Atlas.styleKeys
       Atlas.pack Atlas.pageIndex].
  rewrite length_app, Nat.add_comm. cbn [length Nat.add Nat.pred].
  repeat split; reflexivity.
Qed.

(** A step that does not overflow keeps the closed pages as they are. *)
Lemma step_without_overflow (scale : float) (maxPageSize : Z) (st : Atlas.LoopState)
    (glyph : Glyph) :
  Atlas.overflows
    (RectanglePack.addRect (Atlas.pack st) (Atlas.packWidthOf glyph)
       (Atlas.packHeightOf glyph)).2 maxPageSize = false →
  Atlas.pages (Atlas.this (Atlas.step scale maxPageSize st glyph)) = Atlas.pages (Atlas.this st) ∧
  Atlas.pageIndex (Atlas.step scale maxPageSize st glyph) = Atlas.pageIndex st.
Proof.
  intros Hfit. unfold Atlas.step.
  destruct (Atlas.selectRun glyph (Atlas.styleKeys st) (Atlas.textRuns st))
    as [[keys1 runs1] index].
  destruct (RectanglePack.addRect (Atlas.pack st) (Atlas.packWidthOf glyph)
              (Atlas.packHeightOf glyph)) as [point pack1].
  simpl in Hfit. rewrite Hfit. simpl. split; reflexivity.
Qed.

(** A step touches the locator of the glyph's own key only. *)
Lemma step_keeps_other_keys (scale : float) (maxPageSize : Z) (st : Atlas.LoopState)
    (glyph : Glyph) (key : BytesKey) :
  computeAtlasKey glyph (getStyle glyph) ≠ key →
  Atlas.glyphLocators (Atlas.this (Atlas.step scale maxPageSize st glyph)) !! key =
  Atlas.glyphLocators (Atlas.this st) !! key.
Proof.
  intros Hne. unfold Atlas.step.
  destruct (Atlas.selectRun glyph (Atlas.styleKeys st) (Atlas.textRuns st))
    as [[keys1 runs1] index].
  destruct (RectanglePack.addRect (Atlas.pack st) (Atlas.packWidthOf glyph)
              (Atlas.packHeightOf glyph)) as [point pack1].
  destruct (Atlas.overflows pack1 maxPageSize).
  - destruct (RectanglePack.addRect (RectanglePack.reset pack1) (Atlas.packWidthOf glyph)
                (Atlas.packHeightOf glyph)) as [point' pack'].
    simpl. by rewrite lookup_insert_ne.
  - simpl. by rewrite lookup_insert_ne.
Qed.

(** The packer a step leaves behind. *)
Lemma step_pack (scale : float) (maxPageSize : Z) (st : Atlas.LoopState) (glyph : Glyph) :
  let first := (RectanglePack.addRect (Atlas.pack st) (Atlas.packWidthOf glyph)
                  (Atlas.packHeightOf glyph)).2 in
  Atlas.pack (Atlas.step scale maxPageSize st glyph) =
    if Atlas.overflows first maxPageSize
    then (RectanglePack.addRect (RectanglePack.reset first) (Atlas.packWidthOf glyph)
            (Atlas.packHeightOf glyph)).2
    else first.
Proof.
  unfold Atlas.step.
  destruct (Atlas.selectRun glyph (Atlas.styleKeys st) (Atlas.textRuns st))
    as [[keys1 runs1] index].
  destruct (RectanglePack.addRect (Atlas.pack st) (Atlas.packWidthOf glyph)
              (Atlas.packHeightOf glyph)) as [point pack1].
  simpl. destruct (Atlas.overflows pack1 maxPageSize); [|reflexivity].
  destruct (RectanglePack.addRect (RectanglePack.reset pack1) (Atlas.packWidthOf glyph)
              (Atlas.packHeightOf glyph)) as [point' pack'].
  reflexivity.
Qed.

(** ** Page overflow *)

(** C1 (fails on the code).  On the stream [g1; s2; s3] with pages of at most
    20 pixels, glyph [s2] makes the packed width exceed the maximum.  The
    page is closed with the extent 16 x 16 the packer had before [s2], and the
    locator of [s2] names the next page, index 1.  But the draw entry of [s2]
    is appended to the run of page 0, the page that was closed: page 0 draws
    glyphs 1 and 2, and page 1 draws glyph 3 only. *)
Theorem overflowing_glyph_is_drawn_on_the_closed_page :
  let atlas := Atlas.initPages [Sample.g1; Sample.s2; Sample.s3] (Sample.num 1) 20 in
  Stated.drawLists atlas = [[[1; 2]]; [[3]]] ∧
  map (λ page, (Page.width page, Page.height page)) (Atlas.pages atlas) = [(16, 16); (13, 8)] ∧
  AtlasLocator.pageIndex <$> Atlas.getLocator atlas Sample.g1 Fill = Some 0 ∧
  AtlasLocator.pageIndex <$> Atlas.getLocator atlas Sample.s2 Fill = Some 1 ∧
  AtlasLocator.pageIndex <$> Atlas.getLocator atlas Sample.s3 Fill = Some 1.
Proof. vm_compute. repeat split; reflexivity. Qed.

(** The same at the texture size 2048 with glyphs of 250 x 250 pixels: the
    sixty-fifth glyph overflows the first page, is located on page 1, and is
    drawn by a run of page 0. *)
Lemma page_split_at_texture_size_2048 :
  let atlas := Atlas.initPages Sample.tiles (Sample.num 1) 2048 in
  Atlas.Make (Sample.num 1) Sample.tiles 2048 true =
    Some (Atlas.draw (Sample.num 1) true atlas) ∧
  Stated.drawLists atlas = [[seqZ 1 64; [65]]; [[66]]] ∧
  map (λ page, (Page.width page, Page.height page)) (Atlas.pages atlas) = [(2027, 2027); (511, 258)] ∧
  AtlasLocator.pageIndex <$> Atlas.getLocator atlas (Sample.tile Stroke 1 65) Stroke = Some 1 ∧
  AtlasLocator.pageIndex <$> Atlas.getLocator atlas (Sample.tile Fill 0 66) Fill = Some 1.
Proof. vm_compute. repeat split; reflexivity. Qed.

(** ** Size requested from the packer *)

(** C2, as stated, fails for [StrokeAndFill]: a 10 x 10 glyph with stroke
    width 2 is requested as 10 x 10, not as 14 x 14. *)
Lemma stroke_and_fill_glyph_is_not_inflated :
  let glyph := Sample.strokedAndFilled in
  let start := RectanglePack.make (Sample.num 1) in
  (Stated.packWidthOf glyph, Stated.packHeightOf glyph) = (14, 14) ∧
  Atlas.pack (Atlas.loop (Sample.num 1) 2048 [glyph]) = (RectanglePack.addRect start 10 10).2 ∧
  Atlas.pack (Atlas.loop (Sample.num 1) 2048 [glyph]) ≠
    (RectanglePack.addRect start (Stated.packWidthOf glyph) (Stated.packHeightOf glyph)).2.
Proof.
  vm_compute. split; [reflexivity|]. split; [reflexivity|]. discriminate.
Qed.

(** C2 (amended).  In every step of the page builder the packer is asked for
    the truncated ink-bounds width and height, each grown by twice the
    ceiling of the stroke width when the style is [Stroke], and by nothing
    when it is [Fill] or [StrokeAndFill]; on overflow the same size is asked
    again of the reset packer. *)
Theorem pack_request_is_inflated_for_stroke_only
    (scale : float) (maxPageSize : Z) (st : Atlas.LoopState) (glyph : Glyph) :
  let inflation :=
    match getStyle glyph with
    | Stroke => Float32.ceil_int (getStrokeWidth glyph)
    | Fill | StrokeAndFill => 0
    end in
  let w := Int32.wrap (Float32.to_int (Rect.width (getBounds glyph)) + 2 * inflation) in
  let h := Int32.wrap (Float32.to_int (Rect.height (getBounds glyph)) + 2 * inflation) in
  let first := (RectanglePack.addRect (Atlas.pack st) w h).2 in
  Atlas.pack (Atlas.step scale maxPageSize st glyph) =
    if Atlas.overflows first maxPageSize
    then (RectanglePack.addRect (RectanglePack.reset first) w h).2
    else first.
Proof.
  intros inflation w h first.
  assert (Hinfl : Atlas.strokeInflation glyph = inflation).
  { unfold Atlas.strokeInflation. subst inflation. by destruct (getStyle glyph). }
  assert (Hw : Atlas.packWidthOf glyph = w).
  { unfold Atlas.packWidthOf. rewrite Hinfl. apply Int32_add_mul_2. }
  assert (Hh : Atlas.packHeightOf glyph = h).
  { unfold Atlas.packHeightOf. rewrite Hinfl. apply Int32_add_mul_2. }
  pose proof (step_pack scale maxPageSize st glyph) as Hstep.
  cbv zeta in Hstep. rewrite Hw, Hh in Hstep. exact Hstep.
Qed.

(** ** Atlas::Make *)

(** C3.  [Atlas::Make] returns null exactly when the glyph list is empty or
    the size of the first glyph's font times the scale is greater than 256;
    on every other input it returns the atlas built by [initPages] and
    [draw]. *)
Theorem Make_returns_null_exactly_on_empty_or_oversized
    (scale : float) (glyphs : list Glyph) (maxTextureSize : Z) (alphaOnly : bool) :
  let oversized :=
    ∃ glyph0 rest, glyphs = glyph0 :: rest ∧
      Float32.gtb (Float32.mul (getSize (getFont glyph0)) scale) (Float32.of_int 256) = true in
  (Atlas.Make scale glyphs maxTextureSize alphaOnly = None ↔ glyphs = [] ∨ oversized) ∧
  (Atlas.Make scale glyphs maxTextureSize alphaOnly = None ∨
   Atlas.Make scale glyphs maxTextureSize alphaOnly =
     Some (Atlas.draw scale alphaOnly (Atlas.initPages glyphs scale maxTextureSize))).
Proof.
  intros oversized. subst oversized. unfold Atlas.Make.
  destruct glyphs as [|glyph0 rest].
  - split; [|by left]. split; [by left | done].
  - destruct (Float32.gtb (Float32.mul (getSize (getFont glyph0)) scale) (Float32.of_int 256))
      eqn:Hbig.
    + split; [|by left]. split; [|done].
      intros _. right. by exists glyph0, rest.
    + split; [|by right]. split; [done|].
      intros [Hnil | (g & r & Heq & Hgt)]; [done|].
      injection Heq as <- <-. congruence.
Qed.

(** ** Packed rectangles *)

(** C4 (fails on the code).  Five fill glyphs of ink size 10 x 10, 10 x 10,
    10 x 10, 19 x 20 and 10 x 17, scale 1, one page.  The packer places the
    fourth at (16, 16) and moves its cursor right without growing the packed
    width, so the fifth is placed at (29, 3), inside the fourth: the padded
    rectangles overlap, and so do the two locators, both on page 0. *)
Theorem packer_hands_out_overlapping_rectangles :
  let glyphs := [Sample.g1; Sample.g2; Sample.g3; Sample.g4; Sample.g5] in
  let placed := RectanglePack.packAll (RectanglePack.make (Sample.num 1))
                  (map (λ g, (Atlas.packWidthOf g, Atlas.packHeightOf g)) glyphs) in
  placed !! 3%nat = Some (RectanglePack.MkPlaced 16 16 22 23) ∧
  placed !! 4%nat = Some (RectanglePack.MkPlaced 29 3 13 20) ∧
  RectanglePack.overlap (RectanglePack.MkPlaced 16 16 22 23)
                        (RectanglePack.MkPlaced 29 3 13 20) = true ∧
  ∃ atlas l4 l5,
    Atlas.Make (Sample.num 1) glyphs 2048 true = Some atlas ∧
    length (Atlas.pages atlas) = 1%nat ∧
    Atlas.getLocator atlas Sample.g4 Fill = Some l4 ∧
    Atlas.getLocator atlas Sample.g5 Fill = Some l5 ∧
    AtlasLocator.pageIndex l4 = 0 ∧
    AtlasLocator.pageIndex l5 = 0 ∧
    Rect.intersects (AtlasLocator.location l4) (AtlasLocator.location l5) = true.
Proof.
  cbv zeta. split; [vm_compute; reflexivity|]. split; [vm_compute; reflexivity|].
  split; [vm_compute; reflexivity|].
  eexists; eexists; eexists.
  split; [vm_compute; reflexivity|].
  split; [vm_compute; reflexivity|].
  split; [vm_compute; reflexivity|].
  split; [vm_compute; reflexivity|].
  vm_compute. repeat split; reflexivity.
Qed.

(** C5 (fails on the code).  With the first four glyphs of the same stream the
    atlas has one page of width 29, and the locator of the fourth glyph ends
    at x = 35: the rectangle reaches outside the page it is reported on. *)
Theorem locator_reaches_outside_its_page :
  let glyphs := [Sample.g1; Sample.g2; Sample.g3; Sample.g4] in
  ∃ atlas page locator,
    Atlas.Make (Sample.num 1) glyphs 2048 true = Some atlas ∧
    Atlas.getLocator atlas Sample.g4 Fill = Some locator ∧
    AtlasLocator.pageIndex locator = 0 ∧
    Atlas.pages atlas !! 0%nat = Some page ∧
    Page.width page = 29 ∧
    Rect.right (AtlasLocator.location locator) = Sample.num 35 ∧
    Float32.ltb (Float32.of_int (Page.width page))
                (Rect.right (AtlasLocator.location locator)) = true.
Proof.
  cbv zeta. eexists; eexists; eexists.
  split; [vm_compute; reflexivity|].
  split; [vm_compute; reflexivity|].
  split; [vm_compute; reflexivity|].
  split; [vm_compute; reflexivity|].
  vm_compute. repeat split; reflexivity.
Qed.

(** ** TextAtlas lookups *)

(** C6.  With M mask pages and C color pages (C = 0 without a color atlas),
    [getAtlasTexture i] is the texture of mask page i for i < M, the texture
    of color page i - M for M <= i < M + C, and null for i >= M + C. *)
Theorem getAtlasTexture_unifies_page_indices (ta : TextAtlas.t) (i : Z) :
  0 ≤ i < TextAtlas.size_max →
  let M := TextAtlas.pageCount (TextAtlas.maskAtlas ta) in
  let C := from_option TextAtlas.pageCount 0 (TextAtlas.colorAtlas ta) in
  (i < M →
     ∃ page, Atlas.pages (TextAtlas.maskAtlas ta) !! Z.to_nat i = Some page ∧
             TextAtlas.getAtlasTexture ta i = Page.texture page) ∧
  (M ≤ i < M + C →
     ∃ color page, TextAtlas.colorAtlas ta = Some color ∧
                   Atlas.pages color !! Z.to_nat (i - M) = Some page ∧
                   TextAtlas.getAtlasTexture ta i = Page.texture page) ∧
  (M + C ≤ i → TextAtlas.getAtlasTexture ta i = None).
Proof.
  intros Hi M C. subst M C.
  unfold TextAtlas.getAtlasTexture, TextAtlas.textureAt, TextAtlas.pageCount,
    TextAtlas.size_max in *.
  split; [|split].
  - intros Hlt.
    destruct (lookup_lt_is_Some_2 (Atlas.pages (TextAtlas.maskAtlas ta)) (Z.to_nat i))
      as [page Hpage]; [lia|].
    exists page. split; [exact Hpage|].
    rewrite (proj2 (Z.gtb_lt _ _)) by lia. by rewrite Hpage.
  - intros Hmid.
    destruct (TextAtlas.colorAtlas ta) as [color|]; simpl in Hmid; [|lia].
    destruct (lookup_lt_is_Some_2 (Atlas.pages color)
                (Z.to_nat (i - Z.of_nat (length (Atlas.pages (TextAtlas.maskAtlas ta))))))
      as [page Hpage]; [lia|].
    exists color, page. split; [reflexivity|]. split; [exact Hpage|].
    destruct (Z.gtb_spec (Z.of_nat (length (Atlas.pages (TextAtlas.maskAtlas ta)))) i);
      [lia|].
    rewrite Z.mod_small by lia.
    rewrite (proj2 (Z.gtb_lt _ _)) by lia. by rewrite Hpage.
  - intros Hge.
    destruct (Z.gtb_spec (Z.of_nat (length (Atlas.pages (TextAtlas.maskAtlas ta)))) i).
    { destruct (TextAtlas.colorAtlas ta); simpl in Hge; lia. }
    destruct (TextAtlas.colorAtlas ta) as [color|]; simpl in Hge; [|reflexivity].
    rewrite Z.mod_small by lia.
    destruct (Z.gtb_spec (Z.of_nat (length (Atlas.pages color)))
                (i - Z.of_nat (length (Atlas.pages (TextAtlas.maskAtlas ta))))); [lia|].
    reflexivity.
Qed.

(** The three index ranges on a text atlas with two mask pages and one color
    page: index 1 is a mask page, index 2 the color page, index 3 nothing. *)
Lemma getAtlasTexture_on_two_mask_pages_and_one_color_page :
  let M := TextAtlas.pageCount (TextAtlas.maskAtlas Sample.textAtlas) in
  let C := from_option TextAtlas.pageCount 0 (TextAtlas.colorAtlas Sample.textAtlas) in
  (M = 2 ∧ C = 1) ∧
  (0 ≤ 1 < TextAtlas.size_max ∧ 1 < M ∧
   ∃ page, Atlas.pages (TextAtlas.maskAtlas Sample.textAtlas) !! 1%nat = Some page ∧
           TextAtlas.getAtlasTexture Sample.textAtlas 1 = Page.texture page) ∧
  (0 ≤ 2 < TextAtlas.size_max ∧ M ≤ 2 < M + C ∧
   ∃ color page, TextAtlas.colorAtlas Sample.textAtlas = Some color ∧
                 Atlas.pages color !! 0%nat = Some page ∧
                 TextAtlas.getAtlasTexture Sample.textAtlas 2 = Page.texture page) ∧
  (0 ≤ 3 < TextAtlas.size_max ∧ M + C ≤ 3 ∧
   TextAtlas.getAtlasTexture Sample.textAtlas 3 = None).
Proof.
  assert (H1 : 0 ≤ 1 < TextAtlas.size_max) by (vm_compute; split; [discriminate | reflexivity]).
  assert (H2 : 0 ≤ 2 < TextAtlas.size_max) by (vm_compute; split; [discriminate | reflexivity]).
  assert (H3 : 0 ≤ 3 < TextAtlas.size_max) by (vm_compute; split; [discriminate | reflexivity]).
  assert (Hmask : 1 < TextAtlas.pageCount (TextAtlas.maskAtlas Sample.textAtlas))
    by (vm_compute; reflexivity).
  assert (Hcolor : TextAtlas.pageCount (TextAtlas.maskAtlas Sample.textAtlas) ≤ 2 <
                   TextAtlas.pageCount (TextAtlas.maskAtlas Sample.textAtlas) +
                   from_option TextAtlas.pageCount 0 (TextAtlas.colorAtlas Sample.textAtlas))
    by (vm_compute; split; [discriminate | reflexivity]).
  assert (Hnone : TextAtlas.pageCount (TextAtlas.maskAtlas Sample.textAtlas) +
                  from_option TextAtlas.pageCount 0 (TextAtlas.colorAtlas Sample.textAtlas) ≤ 3)
    by (vm_compute; discriminate).
  cbv zeta.
  split; [split; vm_compute; reflexivity|].
  split; [|split].
  - split; [exact H1|]. split; [exact Hmask|].
    exact (proj1 (getAtlasTexture_unifies_page_indices Sample.textAtlas 1 H1) Hmask).
  - split; [exact H2|]. split; [exact Hcolor|].
    exact (proj1 (proj2 (getAtlasTexture_unifies_page_indices Sample.textAtlas 2 H2)) Hcolor).
  - split; [exact H3|]. split; [exact Hnone|].
    exact (proj2 (proj2 (getAtlasTexture_unifies_page_indices Sample.textAtlas 3 H3)) Hnone).
Defined.

(** C7.  For a glyph of a color typeface [TextAtlas::getLocator] looks in the
    color atlas only: the result is not-found when the color atlas is absent
    or has no entry, whatever the mask atlas holds, and otherwise the color
    atlas's locator with the mask page count added to its page index.  For any
    other glyph the result is the mask atlas's. *)
Theorem getLocator_color_glyphs_use_the_color_atlas_only
    (ta : TextAtlas.t) (glyph : Glyph) (style : TextStyle) :
  (hasColor (getTypeface (getFont glyph)) = true →
     (TextAtlas.colorAtlas ta = None → TextAtlas.getLocator ta glyph style = None) ∧
     (∀ color, TextAtlas.colorAtlas ta = Some color →
        Atlas.getLocator color glyph style = None →
        TextAtlas.getLocator ta glyph style = None) ∧
     (∀ color locator, TextAtlas.colorAtlas ta = Some color →
        Atlas.getLocator color glyph style = Some locator →
        TextAtlas.getLocator ta glyph style =
          Some (AtlasLocator.Build
                  (AtlasLocator.pageIndex locator +
                   TextAtlas.pageCount (TextAtlas.maskAtlas ta))
                  (AtlasLocator.location locator)))) ∧
  (hasColor (getTypeface (getFont glyph)) = false →
     TextAtlas.getLocator ta glyph style = Atlas.getLocator (TextAtlas.maskAtlas ta) glyph style).
Proof.
  unfold TextAtlas.getLocator. split.
  - intros ->. split; [|split].
    + by intros ->.
    + by intros color -> ->.
    + by intros color locator -> ->.
  - by intros ->.
Qed.

(** A color glyph found on page 0 of the color atlas is reported on page 2,
    behind the two mask pages; a mask glyph keeps the mask atlas's locator. *)
Lemma getLocator_on_a_color_glyph_and_a_mask_glyph :
  (∃ color locator,
     hasColor (getTypeface (getFont (Sample.colorGlyph 10 10 1))) = true ∧
     TextAtlas.colorAtlas Sample.textAtlas = Some color ∧
     Atlas.getLocator color (Sample.colorGlyph 10 10 1) Fill = Some locator ∧
     AtlasLocator.pageIndex locator = 0 ∧
     TextAtlas.getLocator Sample.textAtlas (Sample.colorGlyph 10 10 1) Fill =
       Some (AtlasLocator.Build 2 (AtlasLocator.location locator))) ∧
  (hasColor (getTypeface (getFont (Sample.colorGlyph 10 10 1))) = true ∧
   TextAtlas.colorAtlas Sample.maskOnly = None ∧
   TextAtlas.getLocator Sample.maskOnly (Sample.colorGlyph 10 10 1) Fill = None) ∧
  (hasColor (getTypeface (getFont Sample.s3)) = false ∧
   TextAtlas.getLocator Sample.textAtlas Sample.s3 Fill =
     Atlas.getLocator (TextAtlas.maskAtlas Sample.textAtlas) Sample.s3 Fill).
Proof.
  split; [|split].
  - destruct (TextAtlas.colorAtlas Sample.textAtlas) as [color|] eqn:Hcolor;
      [|vm_compute in Hcolor; discriminate].
    destruct (Atlas.getLocator color (Sample.colorGlyph 10 10 1) Fill) as [locator|] eqn:Hloc.
    2: { vm_compute in Hcolor. injection Hcolor as <-. vm_compute in Hloc. discriminate. }
    assert (Hpage : AtlasLocator.pageIndex locator = 0).
    { vm_compute in Hcolor. injection Hcolor as <-. vm_compute in Hloc.
      injection Hloc as <-. reflexivity. }
    exists color, locator.
    split; [reflexivity|]. split; [reflexivity|]. split; [exact Hloc|]. split; [exact Hpage|].
    pose proof (getLocator_color_glyphs_use_the_color_atlas_only
                  Sample.textAtlas (Sample.colorGlyph 10 10 1) Fill) as [Hcol _].
    destruct (Hcol eq_refl) as (_ & _ & Hfound).
    rewrite (Hfound color locator Hcolor Hloc), Hpage. reflexivity.
  - split; [reflexivity|]. split; [vm_compute; reflexivity|].
    pose proof (getLocator_color_glyphs_use_the_color_atlas_only
                  Sample.maskOnly (Sample.colorGlyph 10 10 1) Fill) as [Hcol _].
    destruct (Hcol eq_refl) as (Hnone & _ & _).
    apply Hnone. vm_compute. reflexivity.
  - split; [reflexivity|].
    apply (getLocator_color_glyphs_use_the_color_atlas_only Sample.textAtlas Sample.s3 Fill).
    reflexivity.
Defined.

(** ** Locators *)

(** Locators of keys that do not occur in a stream survive the stream. *)
Lemma fold_step_keeps_other_keys (scale : float) (maxPageSize : Z) (glyphs : list Glyph)
    (key : BytesKey) :
  ∀ st : Atlas.LoopState,
    (∀ g, g ∈ glyphs → computeAtlasKey g (getStyle g) ≠ key) →
    Atlas.glyphLocators (Atlas.this (fold_left (Atlas.step scale maxPageSize) glyphs st)) !! key =
    Atlas.glyphLocators (Atlas.this st) !! key.
Proof.
  induction glyphs as [|glyph glyphs IH]; intros st Hfresh; [reflexivity|].
  simpl. rewrite IH.
  - apply step_keeps_other_keys, Hfresh. by left.
  - intros g Hg. apply Hfresh. by right.
Qed.

(** Closing the last page and drawing leave the locator table alone. *)
Lemma Make_locators (scale : float) (glyphs : list Glyph) (maxTextureSize : Z)
    (alphaOnly : bool) (atlas : Atlas.t) :
  Atlas.Make scale glyphs maxTextureSize alphaOnly = Some atlas →
  Atlas.glyphLocators atlas =
  Atlas.glyphLocators (Atlas.this (Atlas.loop scale maxTextureSize glyphs)).
Proof.
  unfold Atlas.Make. destruct glyphs as [|glyph0 rest]; [discriminate|].
  destruct (Float32.gtb _ _); [discriminate|].
  intros [= <-]. reflexivity.
Qed.

(** C8, as stated, fails when a key recurs in the stream: for the stream
    [g1; g1] the key of [g1] has the locator at (3, 3) after the first
    occurrence, and the finished atlas answers with the one at (16, 3). *)
Lemma repeated_glyph_changes_its_locator :
  let key := computeAtlasKey Sample.g1 Fill in
  ∃ atlas first final,
    Atlas.glyphLocators (Atlas.this (Atlas.loop (Sample.num 1) 2048 [Sample.g1])) !! key
      = Some first ∧
    Atlas.Make (Sample.num 1) [Sample.g1; Sample.g1] 2048 true = Some atlas ∧
    Atlas.getLocator atlas Sample.g1 Fill = Some final ∧
    Rect.left (AtlasLocator.location first) = Sample.num 3 ∧
    Rect.left (AtlasLocator.location final) = Sample.num 16 ∧
    first ≠ final.
Proof.
  cbv zeta. eexists; eexists; eexists.
  split; [vm_compute; reflexivity|].
  split; [vm_compute; reflexivity|].
  split; [vm_compute; reflexivity|].
  split; [vm_compute; reflexivity|].
  split; [vm_compute; reflexivity|].
  vm_compute. discriminate.
Qed.

(** C8 (amended).  A locator assigned to a key while the stream is consumed is
    the one the finished atlas answers with, provided the key does not occur
    again in the rest of the stream. *)
Theorem locator_is_kept_while_its_key_does_not_recur
    (scale : float) (maxTextureSize : Z) (alphaOnly : bool) (before rest : list Glyph)
    (key : BytesKey) (locator : AtlasLocator.t) (atlas : Atlas.t) :
  (∀ g, g ∈ rest → computeAtlasKey g (getStyle g) ≠ key) →
  Atlas.glyphLocators (Atlas.this (Atlas.loop scale maxTextureSize before)) !! key
    = Some locator →
  Atlas.Make scale (before ++ rest) maxTextureSize alphaOnly = Some atlas →
  Atlas.glyphLocators atlas !! key = Some locator.
Proof.
  intros Hfresh Hassigned Hmake.
  rewrite (Make_locators _ _ _ _ _ Hmake).
  unfold Atlas.loop in *. rewrite fold_left_app.
  rewrite fold_step_keeps_other_keys by exact Hfresh.
  exact Hassigned.
Qed.

(** In the stream [g1; g2; g3] the locator [g1] gets in the first step is the
    one the finished atlas holds. *)
Lemma locator_of_first_glyph_is_kept :
  ∃ atlas locator,
    (∀ g, g ∈ [Sample.g2; Sample.g3] →
       computeAtlasKey g (getStyle g) ≠ computeAtlasKey Sample.g1 Fill) ∧
    Atlas.glyphLocators (Atlas.this (Atlas.loop (Sample.num 1) 2048 [Sample.g1]))
      !! computeAtlasKey Sample.g1 Fill = Some locator ∧
    Atlas.Make (Sample.num 1) ([Sample.g1] ++ [Sample.g2; Sample.g3]) 2048 true = Some atlas ∧
    Atlas.glyphLocators atlas !! computeAtlasKey Sample.g1 Fill = Some locator.
Proof.
  assert (Hfresh : ∀ g, g ∈ [Sample.g2; Sample.g3] →
            computeAtlasKey g (getStyle g) ≠ computeAtlasKey Sample.g1 Fill).
  { intros g Hg. apply list_elem_of_In in Hg.
    destruct Hg as [<- | [<- | []]]; discriminate. }
  destruct (Atlas.glyphLocators (Atlas.this (Atlas.loop (Sample.num 1) 2048 [Sample.g1]))
              !! computeAtlasKey Sample.g1 Fill) as [locator|] eqn:Hassigned;
    [|vm_compute in Hassigned; discriminate].
  destruct (Atlas.Make (Sample.num 1) ([Sample.g1] ++ [Sample.g2; Sample.g3]) 2048 true)
    as [atlas|] eqn:Hmake; [|vm_compute in Hmake; discriminate].
  exists atlas, locator.
  split; [exact Hfresh|]. split; [reflexivity|]. split; [reflexivity|].
  exact (locator_is_kept_while_its_key_does_not_recur
           (Sample.num 1) 2048 true [Sample.g1] [Sample.g2; Sample.g3]
           (computeAtlasKey Sample.g1 Fill) locator atlas Hfresh Hassigned Hmake).
Defined.

(** ** Runs and style keys *)

(** A step that does not overflow keeps the selected key vector and appends
    the glyph to the selected run of the local run vector. *)
Lemma step_when_it_fits (scale : float) (maxPageSize : Z) (st : Atlas.LoopState) (glyph : Glyph) :
  let added := RectanglePack.addRect (Atlas.pack st) (Atlas.packWidthOf glyph)
                 (Atlas.packHeightOf glyph) in
  let selected := Atlas.selectRun glyph (Atlas.styleKeys st) (Atlas.textRuns st) in
  Atlas.overflows added.2 maxPageSize = false →
  Atlas.styleKeys (Atlas.step scale maxPageSize st glyph) = selected.1.1 ∧
  Atlas.textRuns (Atlas.step scale maxPageSize st glyph) =
    alter (Atlas.pushGlyph glyph added.1) selected.2 selected.1.2.
Proof.
  intros added selected Hfit. subst added selected. unfold Atlas.step.
  destruct (Atlas.selectRun glyph (Atlas.styleKeys st) (Atlas.textRuns st))
    as [[keys1 runs1] index].
  destruct (RectanglePack.addRect (Atlas.pack st) (Atlas.packWidthOf glyph)
              (Atlas.packHeightOf glyph)) as [point pack1].
  cbn [fst snd] in *. rewrite Hfit. split; reflexivity.
Qed.

(** The closed pages never shrink: when none is closed after a step, none was
    closed before, and the step did not overflow. *)
Lemma step_closes_no_page_only_when_it_fits (scale : float) (maxPageSize : Z)
    (st : Atlas.LoopState) (glyph : Glyph) :
  Atlas.pages (Atlas.this (Atlas.step scale maxPageSize st glyph)) = [] →
  Atlas.pages (Atlas.this st) = [] ∧
  Atlas.overflows
    (RectanglePack.addRect (Atlas.pack st) (Atlas.packWidthOf glyph)
       (Atlas.packHeightOf glyph)).2 maxPageSize = false.
Proof.
  intros Hnone.
  destruct (Atlas.overflows
              (RectanglePack.addRect (Atlas.pack st) (Atlas.packWidthOf glyph)
                 (Atlas.packHeightOf glyph)).2 maxPageSize) eqn:Hover.
  - destruct (step_on_overflow scale maxPageSize st glyph Hover)
      as (runs & index & _ & _ & Hpages & _).
    rewrite Hnone in Hpages. apply (f_equal length) in Hpages.
    rewrite length_alter, length_app in Hpages. simpl in Hpages. lia.
  - split; [|reflexivity].
    destruct (step_without_overflow scale maxPageSize st glyph Hover) as [Hpages _].
    congruence.
Qed.

(** Filtering by a predicate that no element satisfies leaves nothing. *)
Lemma filter_none {A} (P : A → Prop) `{∀ x, Decision (P x)} (l : list A) :
  (∀ x, x ∈ l → ¬ P x) → filter P l = [].
Proof.
  induction l as [|x l IH]; intros Hnone; [reflexivity|].
  rewrite filter_cons. destruct (decide (P x)) as [HP|_].
  - exfalso. apply (Hnone x); [by left | exact HP].
  - apply IH. intros y Hy. apply Hnone. by right.
Qed.

(** Selecting the run of a glyph and appending the glyph to it keeps the
    grouping by style key, for the stream extended by that glyph. *)
Lemma selectRun_keeps_groups (glyph : Glyph) (keys : list BytesKey) (runs : list AtlasTextRun)
    (glyphs : list Glyph) (point : Point.t) :
  Stated.groupsByStyleKey keys runs glyphs →
  let selected := Atlas.selectRun glyph keys runs in
  Stated.groupsByStyleKey selected.1.1
    (alter (Atlas.pushGlyph glyph point) selected.2 selected.1.2)
    (glyphs ++ [glyph]).
Proof.
  intros (Hfirst & Hnodup & Hmem & Hlen & Hruns). cbv zeta.
  unfold Atlas.selectRun.
  destruct (list_find (λ k, k = ComputeStyleKey glyph) keys) as [[index found]|] eqn:Hfind.
  - apply list_find_Some in Hfind as (Hat & -> & _).
    cbn [fst snd].
    assert (Hin : ComputeStyleKey glyph ∈ keys) by (eapply list_elem_of_lookup_2; exact Hat).
    repeat split.
    + unfold Stated.firstOccurrences. rewrite map_app, fold_left_app. simpl.
      fold (Stated.firstOccurrences (map ComputeStyleKey glyphs)). rewrite <- Hfirst.
      by rewrite decide_True.
    + exact Hnodup.
    + intros Hk. rewrite map_app, elem_of_app. left. by apply Hmem.
    + rewrite map_app, elem_of_app. intros [Hk | Hk]; [by apply Hmem|].
      simpl in Hk. apply list_elem_of_singleton in Hk. by subst.
    + by rewrite length_alter.
    + intros i k Hi. rewrite filter_app, map_app.
      destruct (decide (index = i)) as [<- | Hne].
      * assert (k = ComputeStyleKey glyph) as -> by congruence.
        rewrite list_lookup_alter_eq.
        specialize (Hruns index _ Hat).
        destruct (runs !! index) as [run|]; [|discriminate].
        simpl in Hruns. injection Hruns as Hruns. simpl. rewrite Hruns.
        rewrite filter_cons, decide_True by reflexivity. reflexivity.
      * rewrite list_lookup_alter_ne by done. rewrite (Hruns i k Hi).
        rewrite filter_cons, decide_False.
        { by rewrite filter_nil, app_nil_r. }
        intros Heq. apply Hne. eapply NoDup_lookup; [exact Hnodup | exact Hat | congruence].
  - apply list_find_None in Hfind. cbn [fst snd].
    assert (Hnotin : ComputeStyleKey glyph ∉ keys).
    { intros Hin. rewrite Forall_forall in Hfind. by apply (Hfind _ Hin). }
    assert (Halter : alter (Atlas.pushGlyph glyph point) (length runs)
                       (runs ++ [CreateTextRun glyph]) =
                     runs ++ [Atlas.pushGlyph glyph point (CreateTextRun glyph)]).
    { rewrite alter_app_r_alt by lia. by rewrite Nat.sub_diag. }
    rewrite Halter.
    repeat split.
    + unfold Stated.firstOccurrences. rewrite map_app, fold_left_app. simpl.
      fold (Stated.firstOccurrences (map ComputeStyleKey glyphs)). rewrite <- Hfirst.
      by rewrite decide_False.
    + apply NoDup_app. split; [exact Hnodup|]. split; [|apply NoDup_singleton].
      intros k Hk Hk'. apply list_elem_of_singleton in Hk'. by subst.
    + rewrite map_app, !elem_of_app. intros [Hk | Hk]; [left; by apply Hmem | by right].
    + rewrite map_app, !elem_of_app. intros [Hk | Hk]; [left; by apply Hmem | by right].
    + rewrite !length_app. simpl. lia.
    + intros i k Hi. rewrite filter_app, map_app.
      apply lookup_snoc_Some in Hi as [[Hlt Hi] | [Heq Hk]].
      * rewrite lookup_app_l by lia. rewrite (Hruns i k Hi).
        rewrite filter_cons, decide_False.
        { by rewrite filter_nil, app_nil_r. }
        intros Heq. apply Hnotin. rewrite Heq. eapply list_elem_of_lookup_2; exact Hi.
      * subst i k. rewrite <- Hlen. rewrite list_lookup_middle by reflexivity.
        simpl. rewrite filter_none.
        { rewrite filter_cons, decide_True by reflexivity. reflexivity. }
        intros g Hg Heq. apply Hnotin, Hmem. rewrite <- Heq.
        apply list_elem_of_fmap. by exists g.
Qed.

(** As long as no page has been closed, the key and run vectors of the page
    builder group the glyphs consumed so far by style key, one run per key in
    the order of first appearance. *)
Lemma first_page_groups_by_style_key (scale : float) (maxTextureSize : Z) (glyphs : list Glyph) :
  Atlas.pages (Atlas.this (Atlas.loop scale maxTextureSize glyphs)) = [] →
  Stated.groupsByStyleKey
    (Atlas.styleKeys (Atlas.loop scale maxTextureSize glyphs))
    (Atlas.textRuns (Atlas.loop scale maxTextureSize glyphs)) glyphs.
Proof.
  induction glyphs as [|glyph glyphs IH] using rev_ind; intros Hnone.
  - repeat split; try done; try apply NoDup_nil_2.
  - unfold Atlas.loop in *. rewrite fold_left_app in *. simpl in *.
    apply step_closes_no_page_only_when_it_fits in Hnone as [Hbefore Hfit].
    destruct (step_when_it_fits scale _ _ glyph Hfit) as [-> ->].
    apply selectRun_keeps_groups, IH, Hbefore.
Qed.

(** C9 (fails on the code).  Pages of at most 20 pixels.  In the stream
    [g1; k2; s3] the stroked glyph [k2] overflows page 0 and the atlas locates
    it on page 1 together with [s3]; its run, however, was created before the
    overflow test and stays with page 0.  Page 0 then has two runs for one
    style key among its glyphs, and page 1 one run for two style keys.  In the
    stream [g1; s2; s3] the glyphs [s2] and [s3] have the same style key and
    the same page 1, yet [s2] is drawn by the run of page 0 and [s3] by a
    separate run of page 1. *)
Theorem runs_do_not_match_style_keys_after_a_page_split :
  let mixed := [Sample.g1; Sample.k2; Sample.s3] in
  let atlas := Atlas.initPages mixed (Sample.num 1) 20 in
  let plain := [Sample.g1; Sample.s2; Sample.s3] in
  let atlas' := Atlas.initPages plain (Sample.num 1) 20 in
  (Stated.drawLists atlas = [[[1]; [2]]; [[3]]] ∧
   map getGlyphID (Stated.glyphsOnPage atlas mixed 0) = [1] ∧
   map getGlyphID (Stated.glyphsOnPage atlas mixed 1) = [2; 3] ∧
   Stated.runCount atlas 0 = 2%nat ∧ Stated.distinctStyleKeys atlas mixed 0 = 1%nat ∧
   Stated.runCount atlas 1 = 1%nat ∧ Stated.distinctStyleKeys atlas mixed 1 = 2%nat) ∧
  (Stated.drawLists atlas' = [[[1; 2]]; [[3]]] ∧
   map getGlyphID (Stated.glyphsOnPage atlas' plain 1) = [2; 3] ∧
   ComputeStyleKey Sample.s2 = ComputeStyleKey Sample.s3).
Proof. vm_compute. repeat split; reflexivity. Qed.

(** ** Shape::MakeFrom *)

(** C10, as stated, fails for a gradient without colors whose shader cannot
    be built: the path is not empty, and the call neither returns null nor a
    shape, since the last color of an empty list is read. *)
Lemma gradient_without_colors_yields_no_shape :
  ShapeSample.isEmpty ShapeSample.segment = false ∧
  ShapeSample.MakeFromGradient ShapeSample.segment (ShapeSample.gradient []) = Shape.Undefined ∧
  ¬ ∃ shape, ShapeSample.MakeFromGradient ShapeSample.segment (ShapeSample.gradient [])
             = Shape.Returned (Some shape).
Proof.
  split; [reflexivity|]. split; [reflexivity|].
  intros [shape Hshape]. vm_compute in Hshape. discriminate.
Qed.

(** C10 (amended).  Both overloads return null exactly when the path is
    empty.  For a path that is not empty, the color overload returns a shape
    painted with the color; the gradient overload returns a shape with the
    gradient shader when that was built, and with the solid-color shader of
    the last color when it was not built and the gradient has a last color. *)
Theorem MakeFrom_returns_null_exactly_on_empty_path
    (Path : Type) (isEmpty : Path → bool) (Color Shader : Type)
    (MakeLinearGradient : Point.t → Point.t → list Color → list float → option Shader)
    (MakeRadialGradient : Point.t → float → list Color → list float → option Shader)
    (MakeColorShader : Color → option Shader)
    (Distance : Point.t → Point.t → float)
    (path : Path) (color : Color) (gradient : Shape.GradientPaint Color) :
  let fromColor := Shape.MakeFrom Path isEmpty Color Shader path color in
  let fromGradient :=
    Shape.MakeFromGradient Path isEmpty Color Shader
      MakeLinearGradient MakeRadialGradient MakeColorShader Distance path gradient in
  let requested :=
    Shape.gradientShader Color Shader MakeLinearGradient MakeRadialGradient Distance gradient in
  (fromColor = None ↔ isEmpty path = true) ∧
  (fromGradient = Shape.Returned None ↔ isEmpty path = true) ∧
  (isEmpty path = false →
     fromColor = Some (Shape.Build Path Color Shader path
                         (Shape.Build_Paint Color Shader (Some color) None)) ∧
     (∀ shader, requested = Some shader →
        fromGradient = Shape.Returned (Some (Shape.Build Path Color Shader path
                         (Shape.Build_Paint Color Shader None (Some shader))))) ∧
     (∀ lastColor, requested = None → last (Shape.colors Color gradient) = Some lastColor →
        fromGradient = Shape.Returned (Some (Shape.Build Path Color Shader path
                         (Shape.Build_Paint Color Shader None (MakeColorShader lastColor)))))).
Proof.
  intros fromColor fromGradient requested. subst fromColor fromGradient requested.
  unfold Shape.MakeFrom, Shape.MakeFromGradient.
  destruct (isEmpty path) eqn:Hempty.
  - split; [done|]. split; [done|]. discriminate.
  - split; [done|]. split.
    + split; [|discriminate].
      destruct (Shape.gradientShader _ _ _ _ _ gradient); [discriminate|].
      destruct (last (Shape.colors Color gradient)); discriminate.
    + intros _. split; [reflexivity|]. split.
      * by intros shader ->.
      * by intros lastColor -> ->.
Qed.

(** A two-point path: painted with a color; with a gradient whose shader is
    not built and whose colors are 5, 6 and 7, painted with the solid color
    7. *)
Lemma MakeFrom_on_a_segment :
  ShapeSample.isEmpty ShapeSample.segment = false ∧
  ShapeSample.MakeFrom ShapeSample.segment 5 =
    Some (Shape.Build _ _ _ ShapeSample.segment (Shape.Build_Paint _ _ (Some 5) None)) ∧
  Shape.gradientShader _ _ ShapeSample.MakeLinearGradient ShapeSample.MakeRadialGradient
    ShapeSample.Distance (ShapeSample.gradient [5; 6; 7]) = None ∧
  last [5; 6; 7] = Some 7 ∧
  ShapeSample.MakeFromGradient ShapeSample.segment (ShapeSample.gradient [5; 6; 7]) =
    Shape.Returned
      (Some (Shape.Build _ _ _ ShapeSample.segment
               (Shape.Build_Paint _ _ None (ShapeSample.MakeColorShader 7)))).
Proof.
  pose proof (MakeFrom_returns_null_exactly_on_empty_path
                ShapeSample.Path ShapeSample.isEmpty ShapeSample.Color ShapeSample.Shader
                ShapeSample.MakeLinearGradient ShapeSample.MakeRadialGradient
                ShapeSample.MakeColorShader ShapeSample.Distance
                ShapeSample.segment 5 (ShapeSample.gradient [5; 6; 7])) as (_ & _ & Hshape).
  destruct (Hshape eq_refl) as (Hcolor & _ & Hfallback).
  split; [reflexivity|]. split; [exact Hcolor|]. split; [reflexivity|]. split; [reflexivity|].
  exact (Hfallback 7 eq_refl eq_refl).
Defined.

(** * The rectangle packer *)

(** Machine operations whose exact result fits are exact. *)
Lemma Int32_wrap_small (z : Z) : - 2 ^ 31 ≤ z < 2 ^ 31 → Int32.wrap z = z.
Proof. intros Hz. unfold Int32.wrap. rewrite Z.mod_small by lia. lia. Qed.

Lemma Int32_add_small (a b : Z) : - 2 ^ 31 ≤ a + b < 2 ^ 31 → a ⊞ b = a + b.
Proof. apply Int32_wrap_small. Qed.

Lemma Int32_sub_small (a b : Z) : - 2 ^ 31 ≤ a - b < 2 ^ 31 → a ⊟ b = a - b.
Proof. apply Int32_wrap_small. Qed.

Lemma Int32_mul_small (a b : Z) :
  - 2 ^ 16 < a < 2 ^ 16 → 0 ≤ b < 2 ^ 15 → a ⊠ b = a * b.
Proof.
  intros Ha Hb. apply Int32_wrap_small.
  change (2 ^ 16) with 65536 in *. change (2 ^ 15) with 32768 in *.
  change (2 ^ 31) with 2147483648. nia.
Qed.

Lemma Int32_mul_small' (a b : Z) :
  - 2 ^ 15 ≤ a ≤ 2 ^ 15 → - 2 ^ 15 ≤ b ≤ 2 ^ 15 → a ⊠ b = a * b.
Proof.
  intros Ha Hb. apply Int32_wrap_small.
  change (2 ^ 16) with 65536 in *. change (2 ^ 15) with 32768 in *.
  change (2 ^ 31) with 2147483648. nia.
Qed.

(** [openShelf] and [advance] in exact arithmetic, for members and requests
    below [2^15]. *)
Lemma openShelf_exact (pk : RectanglePack.t) (w h : Z) :
  Packed.margins pk → Packed.below (2 ^ 15) pk → 0 ≤ w < 2 ^ 15 → 0 ≤ h < 2 ^ 15 →
  RectanglePack.openShelf pk w h =
    let area := (RectanglePack._width pk - RectanglePack.x pk) *
                (RectanglePack._height pk - RectanglePack.y pk) in
    if ((RectanglePack.x pk + w - RectanglePack._width pk) * RectanglePack.y pk >? area) ||
       ((RectanglePack.y pk + h - RectanglePack._height pk) * RectanglePack.x pk >? area)
    then
      if RectanglePack._width pk <=? RectanglePack._height pk
      then RectanglePack.Build (RectanglePack.padding pk) (RectanglePack._width pk + w)
             (RectanglePack._height pk) (RectanglePack._width pk) (RectanglePack.padding pk)
      else RectanglePack.Build (RectanglePack.padding pk) (RectanglePack._width pk)
             (RectanglePack._height pk + h) (RectanglePack.padding pk) (RectanglePack._height pk)
    else pk.
Proof.
  intros (Hp & Hx & Hy & HW & HH) (Bx & By & BW & BH) Hw Hh.
  unfold RectanglePack.openShelf. cbv zeta.
  rewrite !(Int32_add_small (RectanglePack.x pk) w) by lia.
  rewrite !(Int32_add_small (RectanglePack.y pk) h) by lia.
  rewrite !(Int32_add_small (RectanglePack._width pk) w) by lia.
  rewrite !(Int32_add_small (RectanglePack._height pk) h) by lia.
  rewrite !Int32_sub_small by lia.
  rewrite (Int32_mul_small' (RectanglePack._width pk - RectanglePack.x pk)) by lia.
  rewrite !Int32_mul_small by lia.
  reflexivity.
Qed.

Lemma advance_exact (pk : RectanglePack.t) (w h : Z) :
  Packed.margins pk → Packed.below (2 ^ 16) pk → 0 ≤ w < 2 ^ 15 → 0 ≤ h < 2 ^ 15 →
  RectanglePack.advance pk w h =
    if RectanglePack.x pk + w - RectanglePack._width pk <?
       RectanglePack.y pk + h - RectanglePack._height pk
    then RectanglePack.Build (RectanglePack.padding pk) (RectanglePack._width pk)
           (Z.max (RectanglePack._height pk) (RectanglePack.y pk + h))
           (RectanglePack.x pk + w) (RectanglePack.y pk)
    else RectanglePack.Build (RectanglePack.padding pk)
           (Z.max (RectanglePack._width pk) (RectanglePack.x pk + w))
           (RectanglePack._height pk) (RectanglePack.x pk) (RectanglePack.y pk + h).
Proof.
  intros (Hp & Hx & Hy & HW & HH) (Bx & By & BW & BH) Hw Hh.
  unfold RectanglePack.advance.
  rewrite !(Int32_add_small (RectanglePack.x pk) w) by lia.
  rewrite !(Int32_add_small (RectanglePack.y pk) h) by lia.
  rewrite !Int32_sub_small by lia.
  reflexivity.
Qed.

(** Opening a shelf keeps the margins and stays below [2^16]. *)
Lemma openShelf_margins (pk : RectanglePack.t) (w h : Z) :
  Packed.margins pk → Packed.below (2 ^ 15) pk → 0 ≤ w < 2 ^ 15 → 0 ≤ h < 2 ^ 15 →
  Packed.margins (RectanglePack.openShelf pk w h) ∧
  Packed.below (2 ^ 16) (RectanglePack.openShelf pk w h) ∧
  RectanglePack.padding (RectanglePack.openShelf pk w h) = RectanglePack.padding pk.
Proof.
  intros Hm Hb Hw Hh. rewrite openShelf_exact by assumption. cbv zeta.
  destruct Hm as (Hp & Hx & Hy & HW & HH). destruct Hb as (Bx & By & BW & BH).
  unfold Packed.margins, Packed.below.
  destruct (_ || _); [destruct (_ <=? _)|]; cbn; lia.
Qed.

(** [addRect] on a request whose padded size is [w] x [h], in exact
    arithmetic. *)
Lemma addRect_exact (pk : RectanglePack.t) (w h : Z) :
  Packed.margins pk → Packed.below (2 ^ 15) pk →
  0 ≤ w + RectanglePack.padding pk < 2 ^ 15 → 0 ≤ h + RectanglePack.padding pk < 2 ^ 15 →
  let w' := w + RectanglePack.padding pk in
  let h' := h + RectanglePack.padding pk in
  let pk1 := RectanglePack.openShelf pk w' h' in
  RectanglePack.cursor pk w h = (RectanglePack.x pk1, RectanglePack.y pk1) ∧
  RectanglePack.paddedRect pk w h =
    RectanglePack.MkPlaced (RectanglePack.x pk1) (RectanglePack.y pk1) w' h' ∧
  RectanglePack.addRect pk w h =
    (Point.Make (Float32.of_int (RectanglePack.x pk1)) (Float32.of_int (RectanglePack.y pk1)),
     RectanglePack.advance pk1 w' h').
Proof.
  intros Hm Hb Hw Hh. cbv zeta.
  unfold RectanglePack.addRect, RectanglePack.paddedRect, RectanglePack.cursor.
  rewrite !(Int32_add_small w), !(Int32_add_small h) by lia.
  repeat split.
Qed.

(** X2.  One [addRect] keeps the padding margin and never shrinks the packed
    extent. *)
Theorem addRect_keeps_margins_and_never_shrinks (pk : RectanglePack.t) (w h : Z) :
  Packed.margins pk → Packed.below (2 ^ 15) pk →
  0 ≤ w + RectanglePack.padding pk < 2 ^ 15 → 0 ≤ h + RectanglePack.padding pk < 2 ^ 15 →
  let pk' := (RectanglePack.addRect pk w h).2 in
  let r := RectanglePack.paddedRect pk w h in
  Packed.margins pk' ∧
  RectanglePack.padding pk' = RectanglePack.padding pk ∧
  RectanglePack.width pk ≤ RectanglePack.width pk' ∧
  RectanglePack.height pk ≤ RectanglePack.height pk' ∧
  RectanglePack.padding pk ≤ RectanglePack.px r ∧
  RectanglePack.padding pk ≤ RectanglePack.py r ∧
  (RectanglePack.addRect pk w h).1 =
    Point.Make (Float32.of_int (RectanglePack.px r)) (Float32.of_int (RectanglePack.py r)).
Proof.
  intros Hm Hb Hw Hh. cbv zeta.
  destruct (addRect_exact pk w h Hm Hb Hw Hh) as (_ & -> & ->). cbn [fst snd].
  destruct (openShelf_margins pk _ _ Hm Hb Hw Hh) as (Hm1 & Hb1 & Hp1).
  rewrite advance_exact by assumption.
  assert (HW1 : RectanglePack._width pk ≤ RectanglePack._width
            (RectanglePack.openShelf pk (w + RectanglePack.padding pk)
               (h + RectanglePack.padding pk)) ∧
          RectanglePack._height pk ≤ RectanglePack._height
            (RectanglePack.openShelf pk (w + RectanglePack.padding pk)
               (h + RectanglePack.padding pk))).
  { rewrite openShelf_exact by assumption. cbv zeta.
    destruct (_ || _); [destruct (_ <=? _)|]; cbn; lia. }
  destruct Hm1 as (? & ? & ? & ? & ?).
  unfold Packed.margins, RectanglePack.width, RectanglePack.height.
  destruct (_ <? _); cbn; repeat split; lia.
Qed.

(** X3.  The padded rectangle [addRect] hands out is always within the new
    extent along one axis.  It is within the extent along both exactly when
    the smaller of its two overhangs past the extent is not positive, which
    is always the case when a shelf is opened for it (the first test of
    [addRect] succeeds). *)
Theorem addRect_encloses_unless_both_overhang (pk : RectanglePack.t) (w h : Z) :
  Packed.margins pk → Packed.below (2 ^ 15) pk →
  0 ≤ w + RectanglePack.padding pk < 2 ^ 15 → 0 ≤ h + RectanglePack.padding pk < 2 ^ 15 →
  let w' := w + RectanglePack.padding pk in
  let h' := h + RectanglePack.padding pk in
  let pk1 := RectanglePack.openShelf pk w' h' in
  let pk' := (RectanglePack.addRect pk w h).2 in
  let r := RectanglePack.paddedRect pk w h in
  (RectanglePack.px r + RectanglePack.pw r ≤ RectanglePack.width pk' ∨
   RectanglePack.py r + RectanglePack.ph r ≤ RectanglePack.height pk') ∧
  (Packed.enclosed pk' r ↔
   Z.min (RectanglePack.x pk1 + w' - RectanglePack._width pk1)
         (RectanglePack.y pk1 + h' - RectanglePack._height pk1) ≤ 0) ∧
  (let area := (RectanglePack._width pk - RectanglePack.x pk) *
               (RectanglePack._height pk - RectanglePack.y pk) in
   ((RectanglePack.x pk + w' - RectanglePack._width pk) * RectanglePack.y pk >? area) ||
   ((RectanglePack.y pk + h' - RectanglePack._height pk) * RectanglePack.x pk >? area) = true →
   Packed.enclosed pk' r).
Proof.
  intros Hm Hb Hw Hh. cbv zeta.
  destruct (addRect_exact pk w h Hm Hb Hw Hh) as (_ & -> & ->). cbn [fst snd].
  destruct (openShelf_margins pk _ _ Hm Hb Hw Hh) as (Hm1 & Hb1 & Hp1).
  rewrite advance_exact by assumption.
  unfold Packed.enclosed, RectanglePack.width, RectanglePack.height.
  cbn [RectanglePack.px RectanglePack.py RectanglePack.pw RectanglePack.ph].
  split; [|split].
  - destruct (Z.ltb_spec
      (RectanglePack.x (RectanglePack.openShelf pk (w + RectanglePack.padding pk)
                          (h + RectanglePack.padding pk)) + (w + RectanglePack.padding pk) -
       RectanglePack._width (RectanglePack.openShelf pk (w + RectanglePack.padding pk)
                               (h + RectanglePack.padding pk)))
      (RectanglePack.y (RectanglePack.openShelf pk (w + RectanglePack.padding pk)
                          (h + RectanglePack.padding pk)) + (h + RectanglePack.padding pk) -
       RectanglePack._height (RectanglePack.openShelf pk (w + RectanglePack.padding pk)
                                (h + RectanglePack.padding pk)))); cbn; lia.
  - destruct (Z.ltb_spec
      (RectanglePack.x (RectanglePack.openShelf pk (w + RectanglePack.padding pk)
                          (h + RectanglePack.padding pk)) + (w + RectanglePack.padding pk) -
       RectanglePack._width (RectanglePack.openShelf pk (w + RectanglePack.padding pk)
                               (h + RectanglePack.padding pk)))
      (RectanglePack.y (RectanglePack.openShelf pk (w + RectanglePack.padding pk)
                          (h + RectanglePack.padding pk)) + (h + RectanglePack.padding pk) -
       RectanglePack._height (RectanglePack.openShelf pk (w + RectanglePack.padding pk)
                                (h + RectanglePack.padding pk)))); cbn; lia.
  - intros Hshelf. rewrite openShelf_exact by assumption. cbv zeta. rewrite Hshelf.
    destruct Hm as (? & ? & ? & ? & ?).
    destruct (Z.leb_spec (RectanglePack._width pk) (RectanglePack._height pk)); cbn;
      match goal with |- context [?a <? ?b] => destruct (Z.ltb_spec a b) end; cbn; lia.
Qed.

(** X1.  The first request on a fresh page is placed at the padding margin on
    both axes, and the extent then leaves the padding around it on all four
    sides. *)
Theorem first_rectangle_on_a_fresh_page (pk : RectanglePack.t) (w h : Z) :
  0 < RectanglePack.padding pk < 2 ^ 15 →
  0 < w + RectanglePack.padding pk < 2 ^ 15 →
  0 < h + RectanglePack.padding pk < 2 ^ 15 →
  let p := RectanglePack.padding pk in
  RectanglePack.addRect (RectanglePack.reset pk) w h =
    (Point.Make (Float32.of_int p) (Float32.of_int p),
     RectanglePack.Build p (w + 2 * p) (h + 2 * p) (w + 2 * p) p).
Proof.
  intros Hp Hw Hh. cbv zeta.
  assert (Hm : Packed.margins (RectanglePack.reset pk)) by (unfold Packed.margins; cbn; lia).
  assert (Hb : Packed.below (2 ^ 15) (RectanglePack.reset pk))
    by (unfold Packed.below; cbn; lia).
  destruct (addRect_exact (RectanglePack.reset pk) w h Hm Hb) as (_ & _ & ->);
    [cbn; lia | cbn; lia |].
  destruct (openShelf_margins (RectanglePack.reset pk)
              (w + RectanglePack.padding (RectanglePack.reset pk))
              (h + RectanglePack.padding (RectanglePack.reset pk)) Hm Hb)
    as (Hm1 & Hb1 & _); [cbn; lia | cbn; lia |].
  rewrite advance_exact by (try assumption; cbn; lia).
  rewrite openShelf_exact by (try assumption; cbn; lia).
  cbn [RectanglePack.reset RectanglePack.padding RectanglePack._width RectanglePack._height
       RectanglePack.x RectanglePack.y].
  cbv zeta.
  replace ((RectanglePack.padding pk - RectanglePack.padding pk) *
           (RectanglePack.padding pk - RectanglePack.padding pk)) with 0 by lia.
  assert (Hgt : ((RectanglePack.padding pk + (w + RectanglePack.padding pk) -
                  RectanglePack.padding pk) * RectanglePack.padding pk >? 0) = true)
    by (apply Z.gtb_lt; nia).
  rewrite Hgt. cbn [orb]. rewrite Z.leb_refl.
  cbn [RectanglePack.padding RectanglePack._width RectanglePack._height
       RectanglePack.x RectanglePack.y].
  rewrite (proj2 (Z.ltb_lt _ _)) by lia.
  f_equal. f_equal; lia.
Qed.

(** * The page builder as a whole *)

(** The loop over a stream extended by one glyph is one more step. *)
Lemma loop_snoc (scale : float) (maxTextureSize : Z) (glyphs : list Glyph) (glyph : Glyph) :
  Atlas.loop scale maxTextureSize (glyphs ++ [glyph]) =
  Atlas.step scale (Atlas.maxPageSizeOf maxTextureSize scale)
    (Atlas.loop scale maxTextureSize glyphs) glyph.
Proof. unfold Atlas.loop. by rewrite fold_left_app. Qed.

(** The two outcomes of a step, written out. *)
Lemma step_cases (scale : float) (maxPageSize : Z) (st : Atlas.LoopState) (glyph : Glyph) :
  let w := Atlas.packWidthOf glyph in
  let h := Atlas.packHeightOf glyph in
  let key := computeAtlasKey glyph (getStyle glyph) in
  let selected := Atlas.selectRun glyph (Atlas.styleKeys st) (Atlas.textRuns st) in
  let added := RectanglePack.addRect (Atlas.pack st) w h in
  let again := RectanglePack.addRect (RectanglePack.reset added.2) w h in
  (Atlas.overflows added.2 maxPageSize = false ∧
   Atlas.step scale maxPageSize st glyph =
     Atlas.MkLoop
       (Atlas.Build (Atlas.pages (Atlas.this st))
          (<[key := Atlas.makeLocator (Atlas.pageIndex st) glyph added.1 scale]>
             (Atlas.glyphLocators (Atlas.this st))))
       selected.1.1
       (alter (Atlas.pushGlyph glyph added.1) selected.2 selected.1.2)
       added.2
       (Atlas.pageIndex st)) ∨
  (Atlas.overflows added.2 maxPageSize = true ∧
   Atlas.step scale maxPageSize st glyph =
     Atlas.MkLoop
       (Atlas.Build
          (Atlas.pages (Atlas.this st) ++
             [Atlas.closePage
                (alter (Atlas.pushGlyph glyph again.1) selected.2 selected.1.2) scale
                (RectanglePack.width (Atlas.pack st))
                (RectanglePack.height (Atlas.pack st))])
          (<[key := Atlas.makeLocator (Atlas.pageIndex st ⊞ 1) glyph again.1 scale]>
             (Atlas.glyphLocators (Atlas.this st))))
       [] [] again.2 (Atlas.pageIndex st ⊞ 1)).
Proof.
  cbv zeta. unfold Atlas.step.
  destruct (Atlas.selectRun glyph (Atlas.styleKeys st) (Atlas.textRuns st))
    as [[keys1 runs1] index].
  destruct (RectanglePack.addRect (Atlas.pack st) (Atlas.packWidthOf glyph)
              (Atlas.packHeightOf glyph)) as [point pack1].
  cbn [fst snd].
  destruct (Atlas.overflows pack1 maxPageSize); [right | left]; (split; [reflexivity|]).
  - destruct (RectanglePack.addRect (RectanglePack.reset pack1) (Atlas.packWidthOf glyph)
                (Atlas.packHeightOf glyph)) as [point' pack'].
    cbn [fst snd Atlas.writeRun]. rewrite length_app, Nat.add_comm. cbn [length Nat.add Nat.pred].
    rewrite alter_app_r_alt by lia. rewrite Nat.sub_diag. reflexivity.
  - reflexivity.
Qed.

(** [selectRun] keeps the key and run vectors equally long and returns an
    index inside the run vector. *)
Lemma selectRun_index (glyph : Glyph) (keys : list BytesKey) (runs : list AtlasTextRun) :
  length keys = length runs →
  let selected := Atlas.selectRun glyph keys runs in
  length selected.1.1 = length selected.1.2 ∧ (selected.2 < length selected.1.2)%nat.
Proof.
  intros Hlen. cbv zeta. unfold Atlas.selectRun.
  destruct (list_find (λ k, k = ComputeStyleKey glyph) keys) as [[index found]|] eqn:Hfind;
    cbn [fst snd].
  - apply list_find_Some in Hfind as (Hat & _ & _).
    apply lookup_lt_Some in Hat. split; [exact Hlen | lia].
  - rewrite !length_app. simpl. lia.
Qed.

(** The selected run vector is the old one, possibly with one fresh, empty
    run at the back; the index designates that run when it was added. *)
Lemma selectRun_runs (glyph : Glyph) (keys : list BytesKey) (runs : list AtlasTextRun) :
  let selected := Atlas.selectRun glyph keys runs in
  selected.1.2 = runs ∨
  (selected.1.2 = runs ++ [CreateTextRun glyph] ∧ selected.2 = length runs).
Proof.
  cbv zeta. unfold Atlas.selectRun.
  destruct (list_find (λ k, k = ComputeStyleKey glyph) keys) as [[index found]|];
    cbn [fst snd]; [by left | by right].
Qed.

(** The key and run vectors of the page in progress are equally long. *)
Lemma loop_vectors_aligned (scale : float) (maxTextureSize : Z) (glyphs : list Glyph) :
  length (Atlas.styleKeys (Atlas.loop scale maxTextureSize glyphs)) =
  length (Atlas.textRuns (Atlas.loop scale maxTextureSize glyphs)).
Proof.
  induction glyphs as [|glyph glyphs IH] using rev_ind; [reflexivity|].
  rewrite loop_snoc.
  destruct (step_cases scale (Atlas.maxPageSizeOf maxTextureSize scale)
              (Atlas.loop scale maxTextureSize glyphs) glyph) as [[_ ->] | [_ ->]];
    cbn [Atlas.styleKeys Atlas.textRuns]; [|reflexivity].
  rewrite length_alter. by apply selectRun_index.
Qed.

(** Appending a glyph to the selected run leaves every run well formed. *)
Lemma pushed_runs_wellFormed (glyph : Glyph) (point : Point.t) (keys : list BytesKey)
    (runs : list AtlasTextRun) :
  Forall Drawn.wellFormed runs →
  let selected := Atlas.selectRun glyph keys runs in
  Forall Drawn.wellFormed (alter (Atlas.pushGlyph glyph point) selected.2 selected.1.2).
Proof.
  intros Hwf. cbv zeta.
  assert (Hpush : ∀ run, length (positions run) = length (glyphIDs run) →
            Drawn.wellFormed (Atlas.pushGlyph glyph point run)).
  { intros run Hbal. split; simpl.
    - intros Hnil. by apply app_eq_nil in Hnil as [_ ?].
    - rewrite !length_app. simpl. lia. }
  destruct (selectRun_runs glyph keys runs) as [-> | [-> ->]].
  - apply Forall_alter; [exact Hwf|]. intros run _ [_ Hbal]. by apply Hpush.
  - rewrite alter_app_r_alt by lia. rewrite Nat.sub_diag. simpl.
    apply Forall_app. split; [exact Hwf|].
    apply Forall_singleton. by apply Hpush.
Qed.

(** Appending a glyph to the selected run adds its index to the indices the
    runs draw, and nothing else. *)
Lemma pushed_runs_ids (glyph : Glyph) (point : Point.t) (keys : list BytesKey)
    (runs : list AtlasTextRun) :
  length keys = length runs →
  let selected := Atlas.selectRun glyph keys runs in
  Drawn.idsOfRuns (alter (Atlas.pushGlyph glyph point) selected.2 selected.1.2) ≡ₚ
  Drawn.idsOfRuns runs ++ [getGlyphID glyph].
Proof.
  intros Hlen. cbv zeta.
  assert (Hat : ∀ (l : list AtlasTextRun) (i : nat), (i < length l)%nat →
            Drawn.idsOfRuns (alter (Atlas.pushGlyph glyph point) i l) ≡ₚ
            Drawn.idsOfRuns l ++ [getGlyphID glyph]).
  { unfold Drawn.idsOfRuns. induction l as [|run l IH]; intros i Hi; simpl in *; [lia|].
    destruct i as [|i]; simpl.
    - rewrite <- !app_assoc. apply Permutation_app_head, Permutation_app_comm.
    - rewrite <- app_assoc. apply Permutation_app_head. apply IH. lia. }
  destruct (selectRun_index glyph keys runs Hlen) as [_ Hindex].
  rewrite (Hat _ _ Hindex).
  destruct (selectRun_runs glyph keys runs) as [-> | [-> _]]; [reflexivity|].
  unfold Drawn.idsOfRuns. rewrite map_app, concat_app. simpl. by rewrite app_nil_r.
Qed.

(** Every run of the pages closed so far and of the page in progress is
    well formed. *)
Lemma loop_runs_wellFormed (scale : float) (maxTextureSize : Z) (glyphs : list Glyph) :
  Forall (λ page, Forall Drawn.wellFormed (Page.textRuns page))
         (Atlas.pages (Atlas.this (Atlas.loop scale maxTextureSize glyphs))) ∧
  Forall Drawn.wellFormed (Atlas.textRuns (Atlas.loop scale maxTextureSize glyphs)).
Proof.
  induction glyphs as [|glyph glyphs [IHpages IHruns]] using rev_ind.
  - split; constructor.
  - rewrite loop_snoc.
    destruct (step_cases scale (Atlas.maxPageSizeOf maxTextureSize scale)
                (Atlas.loop scale maxTextureSize glyphs) glyph) as [[_ ->] | [_ ->]];
      cbn [Atlas.this Atlas.pages Atlas.textRuns].
    + split; [exact IHpages|]. by apply pushed_runs_wellFormed.
    + split; [|constructor].
      apply Forall_app. split; [exact IHpages|].
      apply Forall_singleton. cbn [Atlas.closePage Page.textRuns].
      by apply pushed_runs_wellFormed.
Qed.

(** X4.  Every run that [draw] hands to [DrawTextRun] has a first glyph and
    one position per glyph index. *)
Theorem drawn_runs_are_never_empty_and_have_a_position_per_glyph
    (scale : float) (glyphs : list Glyph) (maxTextureSize : Z) (alphaOnly : bool) :
  Forall (λ page, Forall Drawn.wellFormed (Page.textRuns page))
         (Atlas.pages (Atlas.draw scale alphaOnly (Atlas.initPages glyphs scale maxTextureSize))).
Proof.
  destruct (loop_runs_wellFormed scale maxTextureSize glyphs) as [Hpages Hruns].
  unfold Atlas.draw, Atlas.initPages, Atlas.finish. cbn [Atlas.pages].
  apply Forall_fmap. apply Forall_app. split.
  - eapply Forall_impl; [exact Hpages|]. by intros page Hpage.
  - apply Forall_singleton. exact Hruns.
Qed.

(** The glyph indices drawn so far are those of the glyphs consumed. *)
Lemma loop_ids (scale : float) (maxTextureSize : Z) (glyphs : list Glyph) :
  Drawn.idsOfPages (Atlas.pages (Atlas.this (Atlas.loop scale maxTextureSize glyphs))) ++
  Drawn.idsOfRuns (Atlas.textRuns (Atlas.loop scale maxTextureSize glyphs)) ≡ₚ
  map getGlyphID glyphs.
Proof.
  induction glyphs as [|glyph glyphs IH] using rev_ind; [reflexivity|].
  rewrite loop_snoc, map_app. cbn [map].
  pose proof (loop_vectors_aligned scale maxTextureSize glyphs) as Hlen.
  destruct (step_cases scale (Atlas.maxPageSizeOf maxTextureSize scale)
              (Atlas.loop scale maxTextureSize glyphs) glyph) as [[_ ->] | [_ ->]];
    cbn [Atlas.this Atlas.pages Atlas.textRuns].
  - rewrite pushed_runs_ids by exact Hlen. by rewrite app_assoc, IH.
  - unfold Drawn.idsOfPages at 1. rewrite map_app, concat_app.
    cbn [map concat Atlas.closePage Page.textRuns]. rewrite !app_nil_r. fold (Drawn.idsOfPages
      (Atlas.pages (Atlas.this (Atlas.loop scale maxTextureSize glyphs)))).
    rewrite pushed_runs_ids by exact Hlen. by rewrite app_assoc, IH.
Qed.

(** X5.  Every glyph of the stream is drawn exactly once: the glyph indices
    drawn by all runs of all pages are a rearrangement of the stream's. *)
Theorem every_glyph_is_drawn_exactly_once
    (scale : float) (glyphs : list Glyph) (maxTextureSize : Z) (alphaOnly : bool) :
  Drawn.idsOfPages
    (Atlas.pages (Atlas.draw scale alphaOnly (Atlas.initPages glyphs scale maxTextureSize))) ≡ₚ
  map getGlyphID glyphs.
Proof.
  rewrite <- (loop_ids scale maxTextureSize glyphs).
  unfold Atlas.draw, Atlas.initPages, Atlas.finish, Drawn.idsOfPages. cbn [Atlas.pages].
  rewrite <- list_fmap_compose, fmap_app, concat_app. simpl. by rewrite app_nil_r.
Qed.

(** The keys of the locator table are the atlas keys of the glyphs consumed. *)
Lemma loop_locator_keys (scale : float) (maxTextureSize : Z) (glyphs : list Glyph)
    (key : BytesKey) :
  is_Some (Atlas.glyphLocators (Atlas.this (Atlas.loop scale maxTextureSize glyphs)) !! key) ↔
  key ∈ map (λ g, computeAtlasKey g (getStyle g)) glyphs.
Proof.
  induction glyphs as [|glyph glyphs IH] using rev_ind.
  - simpl. rewrite lookup_empty. split; [by intros [? ?] | by intros ?%elem_of_nil].
  - rewrite loop_snoc, map_app, elem_of_app. cbn [map]. rewrite list_elem_of_singleton.
    destruct (step_cases scale (Atlas.maxPageSizeOf maxTextureSize scale)
                (Atlas.loop scale maxTextureSize glyphs) glyph) as [[_ ->] | [_ ->]];
      cbn [Atlas.this Atlas.glyphLocators];
      rewrite lookup_insert_is_Some, IH;
      (split; [intros [Heq | [_ Hin]]; [by right | by left]
              | intros [Hin | Heq]; [|by left];
                destruct (decide (computeAtlasKey glyph (getStyle glyph) = key));
                [by left | by right]]).
Qed.

(** * Paint of the runs *)





(** [addRect] and [reset] keep the padding, and [reset] depends on nothing
    else. *)
Lemma addRect_padding (pk : RectanglePack.t) (w h : Z) :
  RectanglePack.padding (RectanglePack.addRect pk w h).2 = RectanglePack.padding pk.
Proof.
  unfold RectanglePack.addRect, RectanglePack.advance, RectanglePack.openShelf. cbn [snd].
  destruct (_ || _); [destruct (_ <=? _)|]; destruct (_ <? _); reflexivity.
Qed.

Lemma reset_padding (pk : RectanglePack.t) :
  RectanglePack.padding (RectanglePack.reset pk) = RectanglePack.padding pk.
Proof. reflexivity. Qed.

Lemma reset_by_padding (pk pk' : RectanglePack.t) :
  RectanglePack.padding pk = RectanglePack.padding pk' →
  RectanglePack.reset pk = RectanglePack.reset pk'.
Proof. unfold RectanglePack.reset. by intros ->. Qed.

(** The packer of the page builder keeps the padding it was made with. *)
Lemma loop_padding (scale : float) (maxTextureSize : Z) (glyphs : list Glyph) :
  RectanglePack.padding (Atlas.pack (Atlas.loop scale maxTextureSize glyphs)) =
  RectanglePack.padding (RectanglePack.make scale).
Proof.
  induction glyphs as [|glyph glyphs IH] using rev_ind; [reflexivity|].
  rewrite loop_snoc.
  destruct (step_cases scale (Atlas.maxPageSizeOf maxTextureSize scale)
              (Atlas.loop scale maxTextureSize glyphs) glyph) as [[_ ->] | [_ ->]];
    cbn [Atlas.pack]; rewrite addRect_padding; [exact IH|].
  rewrite reset_padding, addRect_padding. exact IH.
Qed.

(** X8.  A glyph that overflows a page is packed exactly as it is packed when
    it is the only glyph of an atlas: the packer is left in the same state
    and the locator has the same rectangle. *)
Theorem overflowing_glyph_is_packed_as_on_a_fresh_atlas
    (scale : float) (maxTextureSize : Z) (glyphs : list Glyph) (glyph : Glyph) :
  length (Atlas.pages (Atlas.this (Atlas.loop scale maxTextureSize (glyphs ++ [glyph])))) =
    S (length (Atlas.pages (Atlas.this (Atlas.loop scale maxTextureSize glyphs)))) →
  let key := computeAtlasKey glyph (getStyle glyph) in
  Atlas.pack (Atlas.loop scale maxTextureSize (glyphs ++ [glyph])) =
    Atlas.pack (Atlas.loop scale maxTextureSize [glyph]) ∧
  AtlasLocator.location <$>
    Atlas.glyphLocators (Atlas.this (Atlas.loop scale maxTextureSize (glyphs ++ [glyph]))) !! key =
  AtlasLocator.location <$>
    Atlas.glyphLocators (Atlas.this (Atlas.loop scale maxTextureSize [glyph])) !! key.
Proof.
  intros Hsplit. cbv zeta.
  assert (Hfresh : ∀ pk, RectanglePack.padding pk = RectanglePack.padding (RectanglePack.make scale) →
            RectanglePack.reset pk = RectanglePack.make scale).
  { intros pk Hpk. unfold RectanglePack.make. by apply reset_by_padding. }
  assert (Hone : Atlas.pack (Atlas.loop scale maxTextureSize [glyph]) =
                   (RectanglePack.addRect (RectanglePack.make scale)
                      (Atlas.packWidthOf glyph) (Atlas.packHeightOf glyph)).2 ∧
                 AtlasLocator.location <$>
                   Atlas.glyphLocators (Atlas.this (Atlas.loop scale maxTextureSize [glyph]))
                     !! computeAtlasKey glyph (getStyle glyph) =
                 Some (AtlasLocator.location
                         (Atlas.makeLocator 0 glyph
                            (RectanglePack.addRect (RectanglePack.make scale)
                               (Atlas.packWidthOf glyph) (Atlas.packHeightOf glyph)).1 scale))).
  { change [glyph] with ([] ++ [glyph]). rewrite loop_snoc.
    destruct (step_cases scale (Atlas.maxPageSizeOf maxTextureSize scale)
                (Atlas.loop scale maxTextureSize []) glyph) as [[_ ->] | [_ ->]];
      cbn [Atlas.pack Atlas.this Atlas.glyphLocators]; rewrite lookup_insert_eq.
    - split; reflexivity.
    - rewrite Hfresh by (by rewrite addRect_padding). split; reflexivity. }
  destruct Hone as [-> ->].
  rewrite loop_snoc in *.
  destruct (step_cases scale (Atlas.maxPageSizeOf maxTextureSize scale)
              (Atlas.loop scale maxTextureSize glyphs) glyph) as [[_ Hstep] | [_ Hstep]];
    rewrite Hstep in *; cbn [Atlas.pack Atlas.this Atlas.glyphLocators Atlas.pages] in *.
  - lia.
  - rewrite lookup_insert_eq.
    rewrite Hfresh by (by rewrite addRect_padding, loop_padding).
    split; reflexivity.
Qed.

(** X7.  When the whole stream fits on one page, the runs of that page group
    the stream by style key: one run per distinct style key, in the order in
    which the keys first appear, each run drawing exactly the glyphs of its
    key in stream order. *)
Theorem single_page_groups_runs_by_style_key
    (scale : float) (maxTextureSize : Z) (glyphs : list Glyph) :
  length (Atlas.pages (Atlas.initPages glyphs scale maxTextureSize)) = 1%nat →
  ∃ page,
    Atlas.pages (Atlas.initPages glyphs scale maxTextureSize) = [page] ∧
    Stated.groupsByStyleKey
      (Stated.firstOccurrences (map ComputeStyleKey glyphs)) (Page.textRuns page) glyphs.
Proof.
  unfold Atlas.initPages, Atlas.finish. cbn [Atlas.pages].
  rewrite length_app. cbn [length]. intros Hone.
  assert (Hnone : Atlas.pages (Atlas.this (Atlas.loop scale maxTextureSize glyphs)) = []).
  { apply nil_length_inv. lia. }
  rewrite Hnone. eexists. split; [reflexivity|]. cbn [Atlas.closePage Page.textRuns].
  pose proof (first_page_groups_by_style_key scale maxTextureSize glyphs Hnone) as Hgroups.
  destruct Hgroups as (Hkeys & ?). rewrite <- Hkeys. by split.
Qed.

(** * Drawing *)

(** X13.  [DrawTextRun] issues one draw call per run, in order, each under the
    caller's matrix concatenated with the scale once, and leaves the canvas
    with the caller's matrix. *)
Theorem DrawTextRun_scales_each_run_once_and_restores_the_matrix
    (Matrix : Type) (MakeScale : float → Matrix) (concatMatrix : Matrix → Matrix → Matrix)
    (canvas : Canvas.t Matrix) (textRuns : list AtlasTextRun) (scale : float) :
  let after := Canvas.DrawTextRun Matrix MakeScale concatMatrix canvas textRuns scale in
  Canvas.getMatrix Matrix after = Canvas.getMatrix Matrix canvas ∧
  Canvas.calls Matrix after =
    Canvas.calls Matrix canvas ++
    map (λ run, Canvas.Build_DrawCall Matrix
                  (concatMatrix (Canvas.getMatrix Matrix canvas) (MakeScale scale))
                  (glyphIDs run) (positions run) (textFont run) (paint run))
        textRuns.
Proof.
  cbv zeta. unfold Canvas.DrawTextRun. cbn [Canvas.setMatrix Canvas.getMatrix Canvas.calls].
  split; [reflexivity|].
  generalize (Canvas.getMatrix Matrix canvas) as total. intros total.
  revert canvas. induction textRuns as [|run textRuns IH]; intros canvas.
  - simpl. by rewrite app_nil_r.
  - simpl. rewrite IH. cbn. by rewrite <- app_assoc.
Qed.

(** An atlas returned by [Make] is the one built by [initPages] and [draw],
    and has one page more than the loop closed. *)
Lemma Make_built (scale : float) (glyphs : list Glyph) (maxTextureSize : Z)
    (alphaOnly : bool) (atlas : Atlas.t) :
  Atlas.Make scale glyphs maxTextureSize alphaOnly = Some atlas →
  atlas = Atlas.draw scale alphaOnly (Atlas.initPages glyphs scale maxTextureSize).
Proof.
  unfold Atlas.Make. destruct glyphs as [|glyph0 rest]; [discriminate|].
  destruct (Float32.gtb _ _); [discriminate|]. by intros [= <-].
Qed.

Lemma built_pages_length (scale : float) (glyphs : list Glyph) (maxTextureSize : Z)
    (alphaOnly : bool) :
  length (Atlas.pages (Atlas.draw scale alphaOnly
                         (Atlas.initPages glyphs scale maxTextureSize))) =
  S (length (Atlas.pages (Atlas.this (Atlas.loop scale maxTextureSize glyphs)))).
Proof.
  unfold Atlas.draw, Atlas.initPages, Atlas.finish. cbn [Atlas.pages].
  rewrite length_fmap, length_app. cbn [length]. lia.
Qed.

(** X9.  In an atlas returned by [Make], [getLocator] finds a glyph under a
    style exactly when the key of that glyph and style is the key some glyph
    of the stream has under its own style. *)
Theorem getLocator_finds_exactly_the_keys_of_the_stream
    (scale : float) (glyphs : list Glyph) (maxTextureSize : Z) (alphaOnly : bool)
    (atlas : Atlas.t) (glyph : Glyph) (style : TextStyle) :
  Atlas.Make scale glyphs maxTextureSize alphaOnly = Some atlas →
  (is_Some (Atlas.getLocator atlas glyph style) ↔
   ∃ g, g ∈ glyphs ∧ computeAtlasKey g (getStyle g) = computeAtlasKey glyph style).
Proof.
  intros Hmake. unfold Atlas.getLocator.
  rewrite (Make_locators _ _ _ _ _ Hmake), loop_locator_keys, list_elem_of_fmap.
  split.
  - intros (g & Hkey & Hin). exists g. split; [exact Hin | by symmetry].
  - intros (g & Hin & Hkey). exists g. split; [by symmetry | exact Hin].
Qed.

(** While fewer than [2^31] glyphs have been consumed, the page index is the
    number of pages closed, no more pages are closed than glyphs consumed, and
    no locator names a page beyond the one in progress. *)
Lemma loop_page_index (scale : float) (maxTextureSize : Z) (glyphs : list Glyph) :
  Z.of_nat (length glyphs) < 2 ^ 31 →
  let st := Atlas.loop scale maxTextureSize glyphs in
  (length (Atlas.pages (Atlas.this st)) ≤ length glyphs)%nat ∧
  Atlas.pageIndex st = Z.of_nat (length (Atlas.pages (Atlas.this st))) ∧
  ∀ key locator, Atlas.glyphLocators (Atlas.this st) !! key = Some locator →
    0 ≤ AtlasLocator.pageIndex locator ≤ Atlas.pageIndex st.
Proof.
  induction glyphs as [|glyph glyphs IH] using rev_ind; intros Hfew; cbv zeta.
  - split; [reflexivity|]. split; [reflexivity|]. intros key locator Hat.
    simpl in Hat. by rewrite lookup_empty in Hat.
  - rewrite length_app in *. cbn [length] in Hfew |- *.
    destruct IH as (Hpages & Hindex & Hlocs); [lia|].
    rewrite loop_snoc.
    destruct (step_cases scale (Atlas.maxPageSizeOf maxTextureSize scale)
                (Atlas.loop scale maxTextureSize glyphs) glyph) as [[_ ->] | [_ ->]];
      cbn [Atlas.this Atlas.pages Atlas.glyphLocators Atlas.pageIndex].
    + split; [lia|]. split; [exact Hindex|].
      intros key locator Hat. apply lookup_insert_Some in Hat as [[_ <-] | [_ Hat]].
      * cbn [AtlasLocator.pageIndex Atlas.makeLocator]. lia.
      * by apply (Hlocs key).
    + assert (Hnext : Atlas.pageIndex (Atlas.loop scale maxTextureSize glyphs) ⊞ 1 =
                      Atlas.pageIndex (Atlas.loop scale maxTextureSize glyphs) + 1).
      { unfold Int32.add, Int32.wrap. rewrite Z.mod_small by lia. lia. }
      rewrite Hnext, length_app. cbn [length].
      split; [lia|]. split; [lia|].
      intros key locator Hat. apply lookup_insert_Some in Hat as [[_ <-] | [_ Hat]].
      * cbn [AtlasLocator.pageIndex Atlas.makeLocator]. lia.
      * specialize (Hlocs key locator Hat). lia.
Qed.

(** The pages, locators and textures of an atlas returned by [Make]. *)
Lemma Make_atlas_shape
    (scale : float) (glyphs : list Glyph) (maxTextureSize : Z) (alphaOnly : bool)
    (atlas : Atlas.t) :
  Z.of_nat (length glyphs) < 2 ^ 31 →
  Atlas.Make scale glyphs maxTextureSize alphaOnly = Some atlas →
  (1 ≤ length (Atlas.pages atlas) ≤ 1 + length glyphs)%nat ∧
  (∀ glyph style locator, Atlas.getLocator atlas glyph style = Some locator →
     0 ≤ AtlasLocator.pageIndex locator < Z.of_nat (length (Atlas.pages atlas))) ∧
  (∀ i page, Atlas.pages atlas !! i = Some page →
     ∃ texture, Page.texture page = Some texture ∧
                surfaceWidth texture = Page.width page ∧
                surfaceHeight texture = Page.height page ∧
                surfaceAlphaOnly texture = alphaOnly ∧
                drawnRuns texture = Page.textRuns page).
Proof.
  intros Hfew Hmake.
  destruct (loop_page_index scale maxTextureSize glyphs Hfew) as (Hpages & Hindex & Hlocs).
  pose proof (Make_locators _ _ _ _ _ Hmake) as Htable.
  unfold Atlas.Make in Hmake. destruct glyphs as [|glyph0 rest]; [discriminate|].
  destruct (Float32.gtb _ _); [discriminate|]. injection Hmake as <-.
  unfold Atlas.draw, Atlas.initPages, Atlas.finish in *. cbn [Atlas.pages Atlas.glyphLocators] in *.
  rewrite length_fmap, length_app. cbn [length] in *.
  split; [lia|]. split.
  - intros glyph style locator Hat. unfold Atlas.getLocator in Hat.
    cbn [Atlas.glyphLocators] in Hat. specialize (Hlocs _ _ Hat). lia.
  - intros i page Hat. apply list_lookup_fmap_Some in Hat as (page0 & -> & _).
    eexists. split; [reflexivity|]. repeat split.
Qed.

(** X10.  With fewer than [2^31] glyphs, an atlas returned by [Make] has at
    least one page and at most one more than it has glyphs, every locator it
    answers with names one of its pages, and every page carries the texture of
    a surface of the page's size on which the page's runs were drawn. *)
Theorem Make_locators_name_pages_with_textures
    (scale : float) (glyphs : list Glyph) (maxTextureSize : Z) (alphaOnly : bool)
    (atlas : Atlas.t) :
  Z.of_nat (length glyphs) < 2 ^ 31 →
  Atlas.Make scale glyphs maxTextureSize alphaOnly = Some atlas →
  (1 ≤ length (Atlas.pages atlas) ≤ 1 + length glyphs)%nat ∧
  (∀ glyph style locator, Atlas.getLocator atlas glyph style = Some locator →
     0 ≤ AtlasLocator.pageIndex locator < Z.of_nat (length (Atlas.pages atlas))) ∧
  (∀ i page, Atlas.pages atlas !! i = Some page →
     ∃ texture, Page.texture page = Some texture ∧
                surfaceWidth texture = Page.width page ∧
                surfaceHeight texture = Page.height page ∧
                surfaceAlphaOnly texture = alphaOnly ∧
                drawnRuns texture = Page.textRuns page).
Proof. apply Make_atlas_shape. Qed.

(** X15.  The glyph consumed last is located on the last page of the atlas,
    for streams of fewer than [2^31] glyphs. *)
Theorem last_glyph_is_located_on_the_last_page
    (scale : float) (glyphs : list Glyph) (glyph : Glyph) (maxTextureSize : Z)
    (alphaOnly : bool) (atlas : Atlas.t) :
  Z.of_nat (length (glyphs ++ [glyph])) < 2 ^ 31 →
  Atlas.Make scale (glyphs ++ [glyph]) maxTextureSize alphaOnly = Some atlas →
  ∃ locator,
    Atlas.getLocator atlas glyph (getStyle glyph) = Some locator ∧
    AtlasLocator.pageIndex locator = Z.of_nat (length (Atlas.pages atlas)) - 1.
Proof.
  intros Hfew Hmake.
  destruct (loop_page_index scale maxTextureSize (glyphs ++ [glyph]) Hfew) as (_ & Hindex & _).
  unfold Atlas.getLocator. rewrite (Make_locators _ _ _ _ _ Hmake).
  assert (Hpages : length (Atlas.pages atlas) =
                   S (length (Atlas.pages (Atlas.this
                        (Atlas.loop scale maxTextureSize (glyphs ++ [glyph])))))).
  { rewrite (Make_built _ _ _ _ _ Hmake). apply built_pages_length. }
  rewrite Hpages. cbv zeta in Hindex.
  replace (Z.of_nat (S (length (Atlas.pages (Atlas.this
             (Atlas.loop scale maxTextureSize (glyphs ++ [glyph])))))) - 1)
    with (Atlas.pageIndex (Atlas.loop scale maxTextureSize (glyphs ++ [glyph]))) by lia.
  rewrite loop_snoc.
  destruct (step_cases scale (Atlas.maxPageSizeOf maxTextureSize scale)
              (Atlas.loop scale maxTextureSize glyphs) glyph) as [[_ ->] | [_ ->]];
    cbn [Atlas.this Atlas.glyphLocators Atlas.pageIndex]; rewrite lookup_insert_eq;
    eexists; split; reflexivity.
Qed.

(** * The text atlas as a whole *)

(** X11.  [TextAtlas::Make] returns null exactly when the mask glyph list is
    empty or its first glyph is oversized at the requested scale times the
    maximal content scale.  Otherwise the text atlas works at that product
    scale, and its color atlas is absent exactly when the color glyph list is
    empty or its first glyph is oversized. *)
Theorem TextAtlas_Make_fails_only_with_the_mask_atlas
    (textGlyphs : TextAtlas.TextGlyphs) (maxTextureSize : Z) (scale : float) :
  let working := Float32.mul scale (TextAtlas.maxScale textGlyphs) in
  let unusable (glyphs : list Glyph) :=
    glyphs = [] ∨
    ∃ glyph0 rest, glyphs = glyph0 :: rest ∧
      Float32.gtb (Float32.mul (getSize (getFont glyph0)) working) (Float32.of_int 256) = true in
  (TextAtlas.Make textGlyphs maxTextureSize scale = None ↔
     unusable (TextAtlas.maskAtlasGlyphs textGlyphs)) ∧
  (∀ ta, TextAtlas.Make textGlyphs maxTextureSize scale = Some ta →
     TextAtlas.scale ta = working ∧
     TextAtlas.maskAtlas ta =
       Atlas.draw working true
         (Atlas.initPages (TextAtlas.maskAtlasGlyphs textGlyphs) working maxTextureSize) ∧
     (TextAtlas.colorAtlas ta = None ↔ unusable (TextAtlas.colorAtlasGlyphs textGlyphs)) ∧
     (∀ color, TextAtlas.colorAtlas ta = Some color →
        color = Atlas.draw working false
                  (Atlas.initPages (TextAtlas.colorAtlasGlyphs textGlyphs) working
                     maxTextureSize))).
Proof.
  cbv zeta.
  assert (Hnull : ∀ glyphs alphaOnly,
            Atlas.Make (Float32.mul scale (TextAtlas.maxScale textGlyphs)) glyphs
              maxTextureSize alphaOnly = None ↔
            glyphs = [] ∨
            ∃ glyph0 rest, glyphs = glyph0 :: rest ∧
              Float32.gtb (Float32.mul (getSize (getFont glyph0))
                             (Float32.mul scale (TextAtlas.maxScale textGlyphs)))
                          (Float32.of_int 256) = true).
  { intros glyphs alphaOnly. unfold Atlas.Make. destruct glyphs as [|glyph0 rest].
    - split; [by left | done].
    - destruct (Float32.gtb _ _) eqn:Hbig.
      + split; [|done]. intros _. right. by exists glyph0, rest.
      + split; [done|]. intros [? | (g & r & Heq & Hgt)]; [done|].
        injection Heq as <- <-. congruence. }
  unfold TextAtlas.Make.
  destruct (Atlas.Make (Float32.mul scale (TextAtlas.maxScale textGlyphs))
              (TextAtlas.maskAtlasGlyphs textGlyphs) maxTextureSize true) as [mask|] eqn:Hmask.
  - split.
    + split; [done|]. intros Hbad. apply (proj2 (Hnull _ true)) in Hbad. congruence.
    + intros ta [= <-]. cbn [TextAtlas.scale TextAtlas.maskAtlas TextAtlas.colorAtlas].
      split; [reflexivity|]. split.
      { unfold Atlas.Make in Hmask.
        destruct (TextAtlas.maskAtlasGlyphs textGlyphs) as [|glyph0 rest]; [discriminate|].
        destruct (Float32.gtb _ _); [discriminate|]. by injection Hmask as <-. }
      split; [exact (Hnull _ false)|].
      intros color Hcolor. unfold Atlas.Make in Hcolor.
      destruct (TextAtlas.colorAtlasGlyphs textGlyphs) as [|glyph0 rest]; [discriminate|].
      destruct (Float32.gtb _ _); [discriminate|]. by injection Hcolor as <-.
  - split; [|discriminate]. split; [|done]. intros _. exact (proj1 (Hnull _ true) Hmask).
Qed.

(** X12.  In a text atlas returned by [TextAtlas::Make] from fewer than [2^31]
    mask and color glyphs, every locator [getLocator] answers with names a page
    for which [getAtlasTexture] returns a texture: a mask page for a glyph of a
    typeface without color, a color page for a glyph of a color typeface. *)
Theorem located_glyphs_have_a_texture
    (textGlyphs : TextAtlas.TextGlyphs) (maxTextureSize : Z) (scale : float)
    (ta : TextAtlas.t) (glyph : Glyph) (style : TextStyle) (locator : AtlasLocator.t) :
  Z.of_nat (length (TextAtlas.maskAtlasGlyphs textGlyphs)) < 2 ^ 31 →
  Z.of_nat (length (TextAtlas.colorAtlasGlyphs textGlyphs)) < 2 ^ 31 →
  TextAtlas.Make textGlyphs maxTextureSize scale = Some ta →
  TextAtlas.getLocator ta glyph style = Some locator →
  let M := TextAtlas.pageCount (TextAtlas.maskAtlas ta) in
  let C := from_option TextAtlas.pageCount 0 (TextAtlas.colorAtlas ta) in
  (if hasColor (getTypeface (getFont glyph))
   then M ≤ AtlasLocator.pageIndex locator < M + C
   else 0 ≤ AtlasLocator.pageIndex locator < M) ∧
  ∃ texture, TextAtlas.getAtlasTexture ta (AtlasLocator.pageIndex locator) = Some texture.
Proof.
  intros Hmasks Hcolors Hmake Hfound. cbv zeta.
  unfold TextAtlas.Make in Hmake.
  destruct (Atlas.Make _ (TextAtlas.maskAtlasGlyphs textGlyphs) maxTextureSize true)
    as [mask|] eqn:Hmask; [|discriminate].
  injection Hmake as <-.
  destruct (Make_atlas_shape _ _ _ _ _ Hmasks Hmask) as (HM & Hmlocs & Hmtex).
  unfold TextAtlas.getLocator, TextAtlas.getAtlasTexture, TextAtlas.textureAt,
    TextAtlas.pageCount, TextAtlas.size_max in *.
  cbn [TextAtlas.maskAtlas TextAtlas.colorAtlas] in *.
  destruct (hasColor (getTypeface (getFont glyph))).
  - destruct (Atlas.Make _ (TextAtlas.colorAtlasGlyphs textGlyphs) maxTextureSize false)
      as [color|] eqn:Hcolor; [|discriminate].
    destruct (Make_atlas_shape _ _ _ _ _ Hcolors Hcolor) as (HC & Hclocs & Hctex).
    destruct (Atlas.getLocator color glyph style) as [inner|] eqn:Hinner; [|discriminate].
    injection Hfound as <-. cbn [AtlasLocator.pageIndex from_option].
    specialize (Hclocs _ _ _ Hinner).
    split; [lia|].
    destruct (Z.gtb_spec (Z.of_nat (length (Atlas.pages mask)))
                (AtlasLocator.pageIndex inner + Z.of_nat (length (Atlas.pages mask))));
      [lia|].
    replace (AtlasLocator.pageIndex inner + Z.of_nat (length (Atlas.pages mask)) -
             Z.of_nat (length (Atlas.pages mask))) with (AtlasLocator.pageIndex inner) by lia.
    rewrite Z.mod_small by lia.
    rewrite (proj2 (Z.gtb_lt _ _)) by lia.
    destruct (lookup_lt_is_Some_2 (Atlas.pages color)
                (Z.to_nat (AtlasLocator.pageIndex inner))) as [page Hpage]; [lia|].
    rewrite Hpage. destruct (Hctex _ _ Hpage) as (texture & -> & _). by exists texture.
  - specialize (Hmlocs _ _ _ Hfound). split; [lia|].
    rewrite (proj2 (Z.gtb_lt _ _)) by lia.
    destruct (lookup_lt_is_Some_2 (Atlas.pages mask)
                (Z.to_nat (AtlasLocator.pageIndex locator))) as [page Hpage]; [lia|].
    rewrite Hpage. destruct (Hmtex _ _ Hpage) as (texture & -> & _). by exists texture.
Qed.

(** * Memory usage *)

(** On pages that all carry a texture, [Atlas::memoryUsage] is the sum of the
    textures' usage modulo [2^64]. *)
Lemma ofAtlas_sum (textureMemoryUsage : Texture → Z) (pages : list Page.t) :
  Forall (λ page, is_Some (Page.texture page)) pages →
  ∀ usage : Z,
    fold_left
      (λ usage page,
         match usage, Page.texture page with
         | Some usage, Some texture =>
             Some ((usage + textureMemoryUsage texture) mod TextAtlas.size_max)
         | _, _ => None
         end)
      pages (Some (usage mod TextAtlas.size_max)) =
    Some ((usage + foldr Z.add 0 (map textureMemoryUsage (omap Page.texture pages)))
            mod TextAtlas.size_max).
Proof.
  induction 1 as [|page pages [texture Htexture] _ IH]; intros usage; simpl.
  - by rewrite Z.add_0_r.
  - rewrite Htexture. simpl. rewrite Z.add_mod_idemp_l by done. rewrite IH.
    f_equal. f_equal. rewrite <- Z.add_assoc. reflexivity.
Qed.

(** Every page of an atlas returned by [Make] carries a texture. *)
Lemma Make_textures (scale : float) (glyphs : list Glyph) (maxTextureSize : Z)
    (alphaOnly : bool) (atlas : Atlas.t) :
  Atlas.Make scale glyphs maxTextureSize alphaOnly = Some atlas →
  Forall (λ page, is_Some (Page.texture page)) (Atlas.pages atlas).
Proof.
  unfold Atlas.Make. destruct glyphs as [|glyph0 rest]; [discriminate|].
  destruct (Float32.gtb _ _); [discriminate|]. intros [= <-].
  unfold Atlas.draw. cbn [Atlas.pages]. apply Forall_fmap, Forall_true.
  intros page. by eexists.
Qed.

(** X14.  On a text atlas returned by [TextAtlas::Make], [memoryUsage] never
    meets a page without texture, and is the usage of the textures of all mask
    and color pages added up modulo [2^64]. *)
Theorem memoryUsage_adds_up_the_pages_of_both_atlases
    (textureMemoryUsage : Texture → Z) (textGlyphs : TextAtlas.TextGlyphs)
    (maxTextureSize : Z) (scale : float) (ta : TextAtlas.t) :
  TextAtlas.Make textGlyphs maxTextureSize scale = Some ta →
  let total (atlas : Atlas.t) :=
    foldr Z.add 0 (map textureMemoryUsage (omap Page.texture (Atlas.pages atlas))) in
  Usage.ofTextAtlas textureMemoryUsage ta =
    Some ((total (TextAtlas.maskAtlas ta) + from_option total 0 (TextAtlas.colorAtlas ta))
            mod TextAtlas.size_max).
Proof.
  intros Hmake. cbv zeta. unfold TextAtlas.Make in Hmake.
  destruct (Atlas.Make _ (TextAtlas.maskAtlasGlyphs textGlyphs) maxTextureSize true)
    as [mask|] eqn:Hmask; [|discriminate].
  injection Hmake as <-. unfold Usage.ofTextAtlas, Usage.ofAtlas.
  cbn [TextAtlas.maskAtlas TextAtlas.colorAtlas].
  change (Some 0) with (Some (0 mod TextAtlas.size_max)).
  rewrite (ofAtlas_sum textureMemoryUsage _ (Make_textures _ _ _ _ _ Hmask)).
  cbv zeta. rewrite !Z.add_0_l.
  destruct (Atlas.Make _ (TextAtlas.colorAtlasGlyphs textGlyphs) maxTextureSize false)
    as [color|] eqn:Hcolor; cbn [from_option].
  - rewrite (ofAtlas_sum textureMemoryUsage _ (Make_textures _ _ _ _ _ Hcolor)).
    rewrite Z.add_0_l, Z.mod_mod by done. by rewrite <- Z.add_mod by done.
  - by rewrite Z.mod_mod, Z.add_0_r by done.
Qed.

(** * Concrete instances *)

(** A 10 x 10 request on a fresh page at padding 3 goes to (3, 3) and makes
    the page 16 x 16. *)
Lemma first_rectangle_at_padding_3 :
  let pk := PackSample.afterThree in
  0 < RectanglePack.padding pk < 2 ^ 15 ∧
  0 < 10 + RectanglePack.padding pk < 2 ^ 15 ∧
  0 < 10 + RectanglePack.padding pk < 2 ^ 15 ∧
  RectanglePack.addRect (RectanglePack.reset pk) 10 10 =
    (Point.Make (Float32.of_int 3) (Float32.of_int 3), RectanglePack.Build 3 16 16 16 3).
Proof.
  assert (H1 : 0 < RectanglePack.padding PackSample.afterThree < 2 ^ 15) by (cbn; lia).
  assert (H2 : 0 < 10 + RectanglePack.padding PackSample.afterThree < 2 ^ 15) by (cbn; lia).
  cbv zeta. split; [exact H1|]. split; [exact H2|]. split; [exact H2|].
  exact (first_rectangle_on_a_fresh_page PackSample.afterThree 10 10 H1 H2 H2).
Defined.

(** The request 19 x 20 on the packer after three glyphs: margins kept, the
    extent grows from 29 x 29 to 29 x 39, and the rectangle starts at
    (16, 16). *)
Lemma addRect_after_three_glyphs_keeps_margins :
  let pk := PackSample.afterThree in
  let pk' := (RectanglePack.addRect pk 19 20).2 in
  let r := RectanglePack.paddedRect pk 19 20 in
  Packed.margins pk ∧ Packed.below (2 ^ 15) pk ∧
  0 ≤ 19 + RectanglePack.padding pk < 2 ^ 15 ∧
  0 ≤ 20 + RectanglePack.padding pk < 2 ^ 15 ∧
  Packed.margins pk' ∧
  RectanglePack.padding pk' = RectanglePack.padding pk ∧
  RectanglePack.width pk ≤ RectanglePack.width pk' ∧
  RectanglePack.height pk ≤ RectanglePack.height pk' ∧
  RectanglePack.padding pk ≤ RectanglePack.px r ∧
  RectanglePack.padding pk ≤ RectanglePack.py r ∧
  (RectanglePack.addRect pk 19 20).1 =
    Point.Make (Float32.of_int (RectanglePack.px r)) (Float32.of_int (RectanglePack.py r)).
Proof.
  assert (Hm : Packed.margins PackSample.afterThree) by (unfold Packed.margins; cbn; lia).
  assert (Hb : Packed.below (2 ^ 15) PackSample.afterThree) by (unfold Packed.below; cbn; lia).
  assert (Hw : 0 ≤ 19 + RectanglePack.padding PackSample.afterThree < 2 ^ 15) by (cbn; lia).
  assert (Hh : 0 ≤ 20 + RectanglePack.padding PackSample.afterThree < 2 ^ 15) by (cbn; lia).
  cbv zeta. split; [exact Hm|]. split; [exact Hb|]. split; [exact Hw|]. split; [exact Hh|].
  exact (addRect_keeps_margins_and_never_shrinks PackSample.afterThree 19 20 Hm Hb Hw Hh).
Defined.

(** The same request overhangs the extent by 9 and 10 without a shelf being
    opened: enclosed along one axis, not along both. *)
Lemma addRect_after_three_glyphs_overhangs :
  let pk := PackSample.afterThree in
  let w' := 19 + RectanglePack.padding pk in
  let h' := 20 + RectanglePack.padding pk in
  let pk1 := RectanglePack.openShelf pk w' h' in
  let pk' := (RectanglePack.addRect pk 19 20).2 in
  let r := RectanglePack.paddedRect pk 19 20 in
  Packed.margins pk ∧ Packed.below (2 ^ 15) pk ∧
  0 ≤ 19 + RectanglePack.padding pk < 2 ^ 15 ∧
  0 ≤ 20 + RectanglePack.padding pk < 2 ^ 15 ∧
  Z.min (RectanglePack.x pk1 + w' - RectanglePack._width pk1)
        (RectanglePack.y pk1 + h' - RectanglePack._height pk1) = 9 ∧
  (RectanglePack.px r + RectanglePack.pw r ≤ RectanglePack.width pk' ∨
   RectanglePack.py r + RectanglePack.ph r ≤ RectanglePack.height pk') ∧
  (Packed.enclosed pk' r ↔
   Z.min (RectanglePack.x pk1 + w' - RectanglePack._width pk1)
         (RectanglePack.y pk1 + h' - RectanglePack._height pk1) ≤ 0) ∧
  (let area := (RectanglePack._width pk - RectanglePack.x pk) *
               (RectanglePack._height pk - RectanglePack.y pk) in
   ((RectanglePack.x pk + w' - RectanglePack._width pk) * RectanglePack.y pk >? area) ||
   ((RectanglePack.y pk + h' - RectanglePack._height pk) * RectanglePack.x pk >? area) = true →
   Packed.enclosed pk' r).
Proof.
  assert (Hm : Packed.margins PackSample.afterThree) by (unfold Packed.margins; cbn; lia).
  assert (Hb : Packed.below (2 ^ 15) PackSample.afterThree) by (unfold Packed.below; cbn; lia).
  assert (Hw : 0 ≤ 19 + RectanglePack.padding PackSample.afterThree < 2 ^ 15) by (cbn; lia).
  assert (Hh : 0 ≤ 20 + RectanglePack.padding PackSample.afterThree < 2 ^ 15) by (cbn; lia).
  cbv zeta. split; [exact Hm|]. split; [exact Hb|]. split; [exact Hw|]. split; [exact Hh|].
  split; [vm_compute; reflexivity|].
  exact (addRect_encloses_unless_both_overhang PackSample.afterThree 19 20 Hm Hb Hw Hh).
Defined.

(** Three glyphs of two styles on one page of size 2048: two runs, the fill
    run first. *)
Lemma two_styles_on_one_page :
  let glyphs := [Sample.g1; Sample.k2; Sample.s3] in
  length (Atlas.pages (Atlas.initPages glyphs (Sample.num 1) 2048)) = 1%nat ∧
  ∃ page,
    Atlas.pages (Atlas.initPages glyphs (Sample.num 1) 2048) = [page] ∧
    Stated.groupsByStyleKey
      (Stated.firstOccurrences (map ComputeStyleKey glyphs)) (Page.textRuns page) glyphs.
Proof.
  assert (Hone : length (Atlas.pages (Atlas.initPages [Sample.g1; Sample.k2; Sample.s3]
                                        (Sample.num 1) 2048)) = 1%nat)
    by (vm_compute; reflexivity).
  cbv zeta. split; [exact Hone|].
  exact (single_page_groups_runs_by_style_key (Sample.num 1) 2048
           [Sample.g1; Sample.k2; Sample.s3] Hone).
Defined.

(** The small glyph that overflows the page of [g1] is packed as on an atlas
    of its own. *)
Lemma small_glyph_overflowing_is_packed_afresh :
  let key := computeAtlasKey Sample.s2 (getStyle Sample.s2) in
  length (Atlas.pages (Atlas.this (Atlas.loop (Sample.num 1) 20 ([Sample.g1] ++ [Sample.s2])))) =
    S (length (Atlas.pages (Atlas.this (Atlas.loop (Sample.num 1) 20 [Sample.g1])))) ∧
  Atlas.pack (Atlas.loop (Sample.num 1) 20 ([Sample.g1] ++ [Sample.s2])) =
    Atlas.pack (Atlas.loop (Sample.num 1) 20 [Sample.s2]) ∧
  AtlasLocator.location <$>
    Atlas.glyphLocators (Atlas.this (Atlas.loop (Sample.num 1) 20 ([Sample.g1] ++ [Sample.s2])))
      !! key =
  AtlasLocator.location <$>
    Atlas.glyphLocators (Atlas.this (Atlas.loop (Sample.num 1) 20 [Sample.s2])) !! key.
Proof.
  assert (Hsplit :
    length (Atlas.pages (Atlas.this (Atlas.loop (Sample.num 1) 20 ([Sample.g1] ++ [Sample.s2])))) =
    S (length (Atlas.pages (Atlas.this (Atlas.loop (Sample.num 1) 20 [Sample.g1])))))
    by (vm_compute; reflexivity).
  cbv zeta. split; [exact Hsplit|].
  exact (overflowing_glyph_is_packed_as_on_a_fresh_atlas (Sample.num 1) 20
           [Sample.g1] Sample.s2 Hsplit).
Defined.

(** In the atlas of [g1; s2; s3], [s2] is found under [Fill]. *)
Lemma lookup_in_a_three_glyph_atlas :
  let glyphs := [Sample.g1; Sample.s2; Sample.s3] in
  ∃ atlas,
    Atlas.Make (Sample.num 1) glyphs 20 true = Some atlas ∧
    (is_Some (Atlas.getLocator atlas Sample.s2 Fill) ↔
     ∃ g, g ∈ glyphs ∧ computeAtlasKey g (getStyle g) = computeAtlasKey Sample.s2 Fill).
Proof.
  cbv zeta.
  destruct (Atlas.Make (Sample.num 1) [Sample.g1; Sample.s2; Sample.s3] 20 true)
    as [atlas|] eqn:Hmake; [|vm_compute in Hmake; discriminate].
  exists atlas. split; [reflexivity|].
  exact (getLocator_finds_exactly_the_keys_of_the_stream (Sample.num 1)
           [Sample.g1; Sample.s2; Sample.s3] 20 true atlas Sample.s2 Fill Hmake).
Defined.

(** The atlas of [g1; s2; s3] at page size 20. *)
Lemma pages_of_a_three_glyph_atlas :
  let glyphs := [Sample.g1; Sample.s2; Sample.s3] in
  ∃ atlas,
    Z.of_nat (length glyphs) < 2 ^ 31 ∧
    Atlas.Make (Sample.num 1) glyphs 20 true = Some atlas ∧
    (1 ≤ length (Atlas.pages atlas) ≤ 1 + length glyphs)%nat ∧
    (∀ glyph style locator, Atlas.getLocator atlas glyph style = Some locator →
       0 ≤ AtlasLocator.pageIndex locator < Z.of_nat (length (Atlas.pages atlas))) ∧
    (∀ i page, Atlas.pages atlas !! i = Some page →
       ∃ texture, Page.texture page = Some texture ∧
                  surfaceWidth texture = Page.width page ∧
                  surfaceHeight texture = Page.height page ∧
                  surfaceAlphaOnly texture = true ∧
                  drawnRuns texture = Page.textRuns page).
Proof.
  cbv zeta.
  assert (Hfew : Z.of_nat (length [Sample.g1; Sample.s2; Sample.s3]) < 2 ^ 31)
    by (vm_compute; reflexivity).
  destruct (Atlas.Make (Sample.num 1) [Sample.g1; Sample.s2; Sample.s3] 20 true)
    as [atlas|] eqn:Hmake; [|vm_compute in Hmake; discriminate].
  exists atlas. split; [exact Hfew|]. split; [reflexivity|].
  exact (Make_locators_name_pages_with_textures (Sample.num 1)
           [Sample.g1; Sample.s2; Sample.s3] 20 true atlas Hfew Hmake).
Defined.

(** The last glyph of [g1; s2; s3] is on the second of two pages. *)
Lemma last_of_three_glyphs :
  ∃ atlas,
    Z.of_nat (length ([Sample.g1; Sample.s2] ++ [Sample.s3])) < 2 ^ 31 ∧
    Atlas.Make (Sample.num 1) ([Sample.g1; Sample.s2] ++ [Sample.s3]) 20 true = Some atlas ∧
    ∃ locator,
      Atlas.getLocator atlas Sample.s3 (getStyle Sample.s3) = Some locator ∧
      AtlasLocator.pageIndex locator = Z.of_nat (length (Atlas.pages atlas)) - 1.
Proof.
  assert (Hfew : Z.of_nat (length ([Sample.g1; Sample.s2] ++ [Sample.s3])) < 2 ^ 31)
    by (vm_compute; reflexivity).
  destruct (Atlas.Make (Sample.num 1) ([Sample.g1; Sample.s2] ++ [Sample.s3]) 20 true)
    as [atlas|] eqn:Hmake; [|vm_compute in Hmake; discriminate].
  exists atlas. split; [exact Hfew|]. split; [reflexivity|].
  exact (last_glyph_is_located_on_the_last_page (Sample.num 1) [Sample.g1; Sample.s2]
           Sample.s3 20 true atlas Hfew Hmake).
Defined.

(** The color glyph of the sample text atlas is located on page 2, which has
    a texture. *)
Lemma color_glyph_of_the_sample_text_atlas_has_a_texture :
  ∃ ta locator,
    Z.of_nat (length (TextAtlas.maskAtlasGlyphs Sample.textGlyphs)) < 2 ^ 31 ∧
    Z.of_nat (length (TextAtlas.colorAtlasGlyphs Sample.textGlyphs)) < 2 ^ 31 ∧
    TextAtlas.Make Sample.textGlyphs 20 (Sample.num 1) = Some ta ∧
    TextAtlas.getLocator ta (Sample.colorGlyph 10 10 1) Fill = Some locator ∧
    (if hasColor (getTypeface (getFont (Sample.colorGlyph 10 10 1)))
     then TextAtlas.pageCount (TextAtlas.maskAtlas ta) ≤ AtlasLocator.pageIndex locator <
          TextAtlas.pageCount (TextAtlas.maskAtlas ta) +
          from_option TextAtlas.pageCount 0 (TextAtlas.colorAtlas ta)
     else 0 ≤ AtlasLocator.pageIndex locator < TextAtlas.pageCount (TextAtlas.maskAtlas ta)) ∧
    ∃ texture, TextAtlas.getAtlasTexture ta (AtlasLocator.pageIndex locator) = Some texture.
Proof.
  assert (Hmasks : Z.of_nat (length (TextAtlas.maskAtlasGlyphs Sample.textGlyphs)) < 2 ^ 31)
    by (vm_compute; reflexivity).
  assert (Hcolors : Z.of_nat (length (TextAtlas.colorAtlasGlyphs Sample.textGlyphs)) < 2 ^ 31)
    by (vm_compute; reflexivity).
  destruct (TextAtlas.Make Sample.textGlyphs 20 (Sample.num 1)) as [ta|] eqn:Hmake;
    [|vm_compute in Hmake; discriminate].
  destruct (TextAtlas.getLocator ta (Sample.colorGlyph 10 10 1) Fill) as [locator|] eqn:Hfound.
  2: { vm_compute in Hmake. injection Hmake as <-. vm_compute in Hfound. discriminate. }
  exists ta, locator. split; [exact Hmasks|]. split; [exact Hcolors|].
  split; [reflexivity|]. split; [exact Hfound|].
  exact (located_glyphs_have_a_texture Sample.textGlyphs 20 (Sample.num 1) ta
           (Sample.colorGlyph 10 10 1) Fill locator Hmasks Hcolors Hmake Hfound).
Defined.

(** Memory usage of the sample text atlas, with the area of a texture for its
    usage. *)
Lemma memory_usage_of_the_sample_text_atlas :
  ∃ ta,
    TextAtlas.Make Sample.textGlyphs 20 (Sample.num 1) = Some ta ∧
    let total (atlas : Atlas.t) :=
      foldr Z.add 0 (map PackSample.area (omap Page.texture (Atlas.pages atlas))) in
    Usage.ofTextAtlas PackSample.area ta =
      Some ((total (TextAtlas.maskAtlas ta) + from_option total 0 (TextAtlas.colorAtlas ta))
              mod TextAtlas.size_max).
Proof.
  destruct (TextAtlas.Make Sample.textGlyphs 20 (Sample.num 1)) as [ta|] eqn:Hmake;
    [|vm_compute in Hmake; discriminate].
  exists ta. split; [reflexivity|].
  exact (memoryUsage_adds_up_the_pages_of_both_atlases PackSample.area Sample.textGlyphs
           20 (Sample.num 1) ta Hmake).
Defined.
